(** * histolab: the random tile sampler ([histolab/tiler.py])

    A shallow embedding of [RandomTiler]: its constructor, the box-mask
    resolver, the random coordinate draw, the rejection-sampling generator
    and the extraction driver, followed by the properties of the
    specification that concern them.

    Conventions of the embedding.
    - Python integers are [Z]; array shapes, array indices and the index
      produced by [enumerate] are [nat].
    - A call that may raise returns a [result]; only the exception class
      matters to the code ([except ValueError]).
    - The global NumPy random state is passed explicitly.
    - [while True] is a [Fixpoint] on a fuel argument that bounds the number
      of passes through the loop body; running out of fuel is reported as
      such and never confused with a normal stop. *)

From Stdlib Require Import ZArith List Bool Lia String Ascii QArith Qround.
From Stdlib Require Import Numbers.DecimalString.
From Stdlib Require DecimalPos DecimalZ.
Import ListNotations.

Open Scope Z_scope.

(** ** Exceptions *)

Inductive exn : Type :=
| ValueError
| AssertionError
| OtherError.

Inductive result (A : Type) : Type :=
| Ok (a : A)
| Raise (e : exn).

Arguments Ok {A} a.
Arguments Raise {A} e.

(** ** [histolab.types.CoordinatePair] *)

Record CoordinatePair : Type := mkCoords {
  x_ul : Z;
  y_ul : Z;
  x_br : Z;
  y_br : Z
}.

(** ** NumPy: boolean arrays, [np.ones], [np.where] *)

(** A 2-D boolean array, height-major: a list of rows. *)
Definition mask : Type := list (list bool).

(** [np.ones(shape, dtype="bool")] for a shape [(rows, cols)]. *)
Definition np_ones (shape : nat * nat) : mask :=
  repeat (repeat true (snd shape)) (fst shape).

(** Column indices of the true entries of one row, counted from [x]. *)
Fixpoint row_where (x : nat) (row : list bool) : list nat :=
  match row with
  | [] => []
  | b :: row' => if b then x :: row_where (S x) row' else row_where (S x) row'
  end.

(** The true entries of the rows of an array, as [(row, column)] pairs in
    row-major order; [y] is the index of the first row. *)
Fixpoint on_pixels (y : nat) (m : mask) : list (nat * nat) :=
  match m with
  | [] => []
  | row :: m' => map (pair y) (row_where 0 row) ++ on_pixels (S y) m'
  end.

(** [np.where(m)]: the row indices and the column indices of the true
    entries, both in row-major order. *)
Definition np_where (m : mask) : list nat * list nat :=
  (map fst (on_pixels 0 m), map snd (on_pixels 0 m)).

(** [m[y][x]], [false] outside the array. *)
Definition pixel (m : mask) (y x : nat) : bool :=
  nth x (nth y m []) false.

(** ** NumPy: the global random state

    The generator is kept abstract as the stream of raw draws it will
    produce; [cursor] counts the draws already consumed.  A draw over a
    population of [n] elements reduces the raw value modulo [n]. *)

Record RandomState : Type := mkRandomState {
  stream : nat -> nat;
  cursor : nat
}.

(** [np.random.seed(seed)]: the raw stream is a function of the seed alone
    ([prng] stands for the generator algorithm). *)
Definition np_random_seed (prng : Z -> nat -> nat) (seed : Z) : RandomState :=
  {| stream := prng seed; cursor := 0 |}.

Definition randint (g : RandomState) (n : nat) : nat * RandomState :=
  (Nat.modulo (stream g (cursor g)) n,
   {| stream := stream g; cursor := S (cursor g) |}).

(** [np.random.choice(a)] for a 1-D array [a]: [ValueError] on an empty
    population, otherwise the element at a random index. *)
Definition np_random_choice (a : list nat) (g : RandomState)
  : result (nat * RandomState) :=
  match a with
  | [] => Raise ValueError
  | d :: _ => let (i, g') := randint g (List.length a) in Ok (nth i a d, g')
  end.

(** ** [histolab.util]: the two helpers the tiler imports *)

(** Nearest integer of a rational (halves go up). *)
Definition round_nearest (q : Q) : Z := Qfloor (q + (1 # 2)).

(** One coordinate scaled by [target_dimension / reference_dimension]. *)
Definition scale_coordinate (c : Z) (reference_dim target_dim : nat) : Z :=
  round_nearest
    (inject_Z c * (inject_Z (Z.of_nat target_dim) / inject_Z (Z.of_nat reference_dim))).

(** Modelled from the spec: [scale_coordinates] of [histolab.util], which is
    imported by the tiler but whose body is not part of the sources at hand.
    Spec 4.1: each of the four coordinates is multiplied by
    [target_dimension / reference_dimension] along its axis (x with the
    widths, y with the heights) and rounded to the nearest integer.  Sizes
    are [(width, height)]. *)
Definition scale_coordinates (reference_coords : CoordinatePair)
    (reference_size target_size : nat * nat) : CoordinatePair :=
  {| x_ul := scale_coordinate (x_ul reference_coords) (fst reference_size) (fst target_size);
     y_ul := scale_coordinate (y_ul reference_coords) (snd reference_size) (snd target_size);
     x_br := scale_coordinate (x_br reference_coords) (fst reference_size) (fst target_size);
     y_br := scale_coordinate (y_br reference_coords) (snd reference_size) (snd target_size) |}.

(** Modelled from the spec: [resize_mask] of [histolab.util], imported by the
    tiler but absent from the sources at hand.  Spec 3 and 4.2: the level-0
    mask is resized to the target level's pixel dimensions by a nearest,
    label-preserving resize.  Output pixel [(i, j)] of the
    [(height, width)] result takes the value of the source pixel at the
    proportional position. *)
Definition resize_mask (input_mask : mask) (target_dimensions : nat * nat) : mask :=
  let w := fst target_dimensions in
  let h := snd target_dimensions in
  let src_h := List.length input_mask in
  let src_w := List.length (hd [] input_mask) in
  map (fun i =>
         map (fun j => pixel input_mask (Nat.div (i * src_h) h) (Nat.div (j * src_w) w))
             (seq 0 w))
      (seq 0 h).

(** ** Sequencing of calls that may raise *)

Definition bind {A B : Type} (r : result A) (k : A -> result B) : result B :=
  match r with
  | Ok a => k a
  | Raise e => Raise e
  end.

Notation "' p <- r ;; k" := (bind r (fun p => k))
  (at level 61, p pattern, r at next level, right associativity).

(** ** The external collaborators: [Tile] and [Slide]

    Only what the tiler calls.  [image] stands for the pixel payload;
    [extract_tile] raises [ValueError] for a box outside the slide and may
    raise anything else (a decoding failure, say).  Dimensions are
    [(width, height)]. *)

Record Tile : Type := mkTile {
  image : nat;
  has_enough_tissue : bool
}.

Record Slide : Type := mkSlide {
  dimensions : nat * nat;
  level_dimensions : Z -> nat * nat;
  biggest_tissue_box_mask : mask;
  extract_tile : CoordinatePair -> Z -> result Tile
}.

(** ** [RandomTiler] *)

Record RandomTiler : Type := mkRandomTiler {
  tile_size : Z * Z;
  max_iter : Z;
  level : Z;
  n_tiles : Z;
  seed : Z;
  check_tissue : bool;
  prefix : string;
  suffix : string
}.

(** [RandomTiler.__init__]: the [assert] on the two budgets, then the eight
    attribute assignments. *)
Definition __init__ (tile_size : Z * Z) (n_tiles level seed : Z)
    (check_tissue : bool) (prefix suffix : string) (max_iter : Z)
  : result RandomTiler :=
  if max_iter >=? n_tiles then
    Ok {| tile_size := tile_size;
          max_iter := max_iter;
          level := level;
          n_tiles := n_tiles;
          seed := seed;
          check_tissue := check_tissue;
          prefix := prefix;
          suffix := suffix |}
  else Raise AssertionError.

(** [slide.dimensions[::-1]] *)
Definition reversed (d : nat * nat) : nat * nat := (snd d, fst d).

(** [RandomTiler.box_mask].  The [lru_cache] decorator only avoids
    recomputing a value that is a function of the tiler and the slide; it is
    not modelled. *)
Definition box_mask (self : RandomTiler) (slide : Slide) : mask :=
  if check_tissue self then biggest_tissue_box_mask slide
  else np_ones (reversed (dimensions slide)).

(** [RandomTiler.box_mask_lvl] *)
Definition box_mask_lvl (self : RandomTiler) (slide : Slide) : mask :=
  let box_mask_wsi := box_mask self slide in
  if negb (level self =? 0) then
    resize_mask box_mask_wsi (level_dimensions slide (level self))
  else box_mask_wsi.

(** The two draws of [_random_tile_coordinates] (its lines
    [x_ul_lvl = np.random.choice(np.where(box_mask_lvl)[1])] and
    [y_ul_lvl = np.random.choice(np.where(box_mask_lvl)[0])]): first the
    column, then the row. *)
Definition random_upper_left (box_mask_lvl : mask) (g : RandomState)
  : result (nat * nat * RandomState) :=
  ' (x_ul_lvl, g1) <- np_random_choice (snd (np_where box_mask_lvl)) g ;;
  ' (y_ul_lvl, g2) <- np_random_choice (fst (np_where box_mask_lvl)) g1 ;;
  Ok (x_ul_lvl, y_ul_lvl, g2).

(** [RandomTiler._random_tile_coordinates] *)
Definition _random_tile_coordinates (self : RandomTiler) (slide : Slide)
    (g : RandomState) : result (CoordinatePair * RandomState) :=
  let box_mask_lvl := box_mask_lvl self slide in
  let (tile_w_lvl, tile_h_lvl) := tile_size self in
  ' (x_ul_lvl, y_ul_lvl, g') <- random_upper_left box_mask_lvl g ;;
  let x_ul_lvl := Z.of_nat x_ul_lvl in
  let y_ul_lvl := Z.of_nat y_ul_lvl in
  let x_br_lvl := x_ul_lvl + tile_w_lvl in
  let y_br_lvl := y_ul_lvl + tile_h_lvl in
  let tile_wsi_coords :=
    scale_coordinates
      (mkCoords x_ul_lvl y_ul_lvl x_br_lvl y_br_lvl)
      (level_dimensions slide (level self))
      (level_dimensions slide 0) in
  Ok (tile_wsi_coords, g').

(** How a run of the generator ends: it leaves the loop through one of the
    two [break]s (with the final values of its two counters), an exception
    escapes from it, or the fuel of the model runs out. *)
Inductive gen_end : Type :=
| StopIteration (iteration valid_tile_counter : Z)
| Raises (e : exn)
| OutOfFuel.

(** Python truthiness of an integer. *)
Definition truthy (z : Z) : bool := negb (z =? 0).

(** The first stopping test, [self.max_iter and iteration > self.max_iter]. *)
Definition budget_exhausted (self : RandomTiler) (iteration : Z) : bool :=
  truthy (max_iter self) && (iteration >? max_iter self).

(** The [while True] loop of [_random_tiles_generator], entered with the
    current values of the two counters and of the random state.  The result
    is the sequence of yielded pairs and the way the run ends. *)
Fixpoint tiles_loop (self : RandomTiler) (slide : Slide) (fuel : nat)
    (iteration valid_tile_counter : Z) (g : RandomState)
  : list (Tile * CoordinatePair) * gen_end :=
  match fuel with
  | O => ([], OutOfFuel)
  | S fuel' =>
    let iteration := iteration + 1 in
    match _random_tile_coordinates self slide g with
    | Raise e => ([], Raises e)
    | Ok (tile_wsi_coords, g') =>
      match extract_tile slide tile_wsi_coords (level self) with
      | Raise ValueError =>
        let iteration := iteration - 1 in
        tiles_loop self slide fuel' iteration valid_tile_counter g'
      | Raise e => ([], Raises e)
      | Ok tile =>
        let accepted := negb (check_tissue self) || has_enough_tissue tile in
        let yielded := if accepted then [(tile, tile_wsi_coords)] else [] in
        let valid_tile_counter :=
          if accepted then valid_tile_counter + 1 else valid_tile_counter in
        if budget_exhausted self iteration then
          (yielded, StopIteration iteration valid_tile_counter)
        else if valid_tile_counter >? n_tiles self then
          (yielded, StopIteration iteration valid_tile_counter)
        else
          let (rest, e) :=
            tiles_loop self slide fuel' iteration valid_tile_counter g' in
          (yielded ++ rest, e)
      end
    end
  end.

(** [RandomTiler._random_tiles_generator], drained:
    [iteration = valid_tile_counter = 0], then the loop. *)
Definition _random_tiles_generator (self : RandomTiler) (slide : Slide)
    (fuel : nat) (g : RandomState) : list (Tile * CoordinatePair) * gen_end :=
  tiles_loop self slide fuel 0 0 g.

(** [str] of an integer, as an f-string renders it. *)
Definition str (z : Z) : string := NilZero.string_of_int (Z.to_int z).

(** [RandomTiler._tile_filename] *)
Definition _tile_filename (self : RandomTiler) (tile_wsi_coords : CoordinatePair)
    (tiles_counter : nat) : string :=
  let '(mkCoords x_ul_wsi y_ul_wsi x_br_wsi y_br_wsi) := tile_wsi_coords in
  (prefix self ++ "tile_" ++ str (Z.of_nat tiles_counter)
     ++ "_level" ++ str (level self)
     ++ "_" ++ str x_ul_wsi ++ "-" ++ str y_ul_wsi
     ++ "-" ++ str x_br_wsi ++ "-" ++ str y_br_wsi ++ suffix self)%string.

(** What a call of [extract] leaves behind: the files written by
    [tile.save], in order, the lines printed, and how the call ended. *)
Inductive outcome : Type :=
| Completed
| Raised (e : exn)
| Diverged.

Record Run : Type := mkRun {
  saved : list (string * Tile);
  stdout : list string;
  status : outcome
}.

Definition tab : string := String (ascii_of_nat 9) EmptyString.

(** The body of the [for ... in enumerate(random_tiles)] loop of [extract],
    over the pairs the generator yields, numbered from [tiles_counter]. *)
Fixpoint save_tiles (self : RandomTiler) (tiles_counter : nat)
    (random_tiles : list (Tile * CoordinatePair))
  : list (string * Tile) * list string :=
  match random_tiles with
  | [] => ([], [])
  | (tile, tile_wsi_coords) :: rest =>
    let tile_filename := _tile_filename self tile_wsi_coords tiles_counter in
    let line :=
      (tab ++ " Tile " ++ str (Z.of_nat tiles_counter) ++ " saved: "
           ++ tile_filename)%string in
    let (files, lines) := save_tiles self (S tiles_counter) rest in
    ((tile_filename, tile) :: files, line :: lines)
  end.

(** [RandomTiler.extract].  [ambient] is the global random state at the time
    of the call; the first statement overwrites it.  After the loop
    [tiles_counter] holds the last index handed out by [enumerate], or its
    initial [0] when nothing was yielded.  The summary line is printed only
    if the generator stops normally. *)
Definition extract (prng : Z -> nat -> nat) (fuel : nat) (self : RandomTiler)
    (slide : Slide) (ambient : RandomState) : Run :=
  let g := np_random_seed prng (seed self) in
  let (random_tiles, e) := _random_tiles_generator self slide fuel g in
  let (files, lines) := save_tiles self 0 random_tiles in
  let tiles_counter := Nat.pred (List.length random_tiles) in
  match e with
  | StopIteration _ _ =>
    {| saved := files;
       stdout := lines ++ [(str (Z.of_nat tiles_counter)
                              ++ " Random Tiles have been saved.")%string];
       status := Completed |}
  | Raises e => {| saved := files; stdout := lines; status := Raised e |}
  | OutOfFuel => {| saved := files; stdout := lines; status := Diverged |}
  end.

(** ** Concrete slides, tilers and random streams used in the examples *)

(** A toy generator: the raw stream of seed [s] counts up from [s]. *)
Definition counting_prng (s : Z) (k : nat) : nat := (Z.to_nat s + k)%nat.

(** A 2x2 slide with a single level whose every pixel is tissue and whose
    every extraction succeeds, with tiles that pass the tissue check or
    not according to [enough]. *)
Definition uniform_slide (enough : bool) : Slide :=
  {| dimensions := (2, 2)%nat;
     level_dimensions := fun _ => (2, 2)%nat;
     biggest_tissue_box_mask := [[true; true]; [true; true]];
     extract_tile := fun _ _ => Ok {| image := 0; has_enough_tissue := enough |} |}.

(** The same slide with no tissue at all. *)
Definition blank_slide : Slide :=
  {| dimensions := (2, 2)%nat;
     level_dimensions := fun _ => (2, 2)%nat;
     biggest_tissue_box_mask := [[false; false]; [false; false]];
     extract_tile := fun _ _ => Ok {| image := 0; has_enough_tissue := false |} |}.

(** A 4x2 slide with a half-size level 1. *)
Definition pyramid_slide : Slide :=
  {| dimensions := (4, 2)%nat;
     level_dimensions := fun l => if l =? 0 then (4, 2)%nat else (2, 1)%nat;
     biggest_tissue_box_mask := [[true; true; false; false]; [true; true; false; false]];
     extract_tile := fun _ _ => Ok {| image := 0; has_enough_tissue := true |} |}.

(** A mask whose true entries do not form a rectangle. *)
Definition diagonal_mask : mask := [[true; false]; [false; true]].

Definition tiler (n_tiles max_iter : Z) (check_tissue : bool) : RandomTiler :=
  {| tile_size := (1, 1);
     max_iter := max_iter;
     level := 0;
     n_tiles := n_tiles;
     seed := 7;
     check_tissue := check_tissue;
     prefix := "";
     suffix := ".png" |}.

(** A 2x2 slide of tissue that refuses every box reaching past its border. *)
Definition fenced_slide : Slide :=
  {| dimensions := (2, 2)%nat;
     level_dimensions := fun _ => (2, 2)%nat;
     biggest_tissue_box_mask := [[true; true]; [true; true]];
     extract_tile := fun c _ =>
       if (x_br c >? 2) || (y_br c >? 2) then Raise ValueError
       else Ok {| image := 0; has_enough_tissue := true |} |}.

(** A 2x2 slide whose tissue mask is [diagonal_mask]. *)
Definition diagonal_slide : Slide :=
  {| dimensions := (2, 2)%nat;
     level_dimensions := fun _ => (2, 2)%nat;
     biggest_tissue_box_mask := diagonal_mask;
     extract_tile := fun _ _ => Ok {| image := 0; has_enough_tissue := true |} |}.

(** A 2x2 slide of tissue that refuses every box (any tile is too large
    for it). *)
Definition cramped_slide : Slide :=
  {| dimensions := (2, 2)%nat;
     level_dimensions := fun _ => (2, 2)%nat;
     biggest_tissue_box_mask := [[true; true]; [true; true]];
     extract_tile := fun _ _ => Raise ValueError |}.

(** ** The data registry ([histolab/data/_registry.py])

    A Python [dict] from strings to strings is an association list in
    insertion order with distinct keys; a failed lookup ([KeyError]) is
    [None]. *)

Module Registry.

Definition dict : Type := list (string * string).

(** [d[k]] *)
Fixpoint dict_get (d : dict) (k : string) : option string :=
  match d with
  | [] => None
  | (k', v) :: d' => if String.eqb k' k then Some v else dict_get d' k
  end.

(** [d[k] = v] *)
Fixpoint dict_set (d : dict) (k v : string) : dict :=
  match d with
  | [] => [(k, v)]
  | (k', v') :: d' =>
    if String.eqb k' k then (k', v) :: d' else (k', v') :: dict_set d' k v
  end.

(** A dict display [{k1: v1, k2: v2, ...}]. *)
Definition dict_of_items (items : list (string * string)) : dict :=
  fold_left (fun d kv => dict_set d (fst kv) (snd kv)) items [].

Definition legacy_datasets : list string := ["cmu_small_region.svs"%string].

Definition registry : dict :=
  dict_of_items
    [("data/cmu_small_region.svs"%string,
      "ed92d5a9f2e86df67640d6f92ce3e231419ce127131697fbbce42ad5e002c8a7"%string);
     ("aperio/JP2K-33003-1.svs"%string,
      "6205ccf75a8fa6c32df7c5c04b7377398971a490fb6b320d50d91f7ba6a0e6fd"%string)].

(** The comprehension
    [{("data/" + filename): registry["data/" + filename]
      for filename in legacy_datasets}],
    over any registry and any list of file names, continuing from the
    entries [acc] built so far. *)
Fixpoint legacy_comprehension (registry : dict) (legacy_datasets : list string)
    (acc : dict) : option dict :=
  match legacy_datasets with
  | [] => Some acc
  | filename :: rest =>
    match dict_get registry ("data/" ++ filename)%string with
    | None => None
    | Some hash =>
      legacy_comprehension registry rest
                           (dict_set acc ("data/" ++ filename)%string hash)
    end
  end.

Definition legacy_registry : option dict :=
  legacy_comprehension registry legacy_datasets [].

End Registry.

(** ** Characters of a rendered integer *)

Definition is_digit (a : ascii) : bool :=
  let n := nat_of_ascii a in (48 <=? n)%nat && (n <=? 57)%nat.

Fixpoint all_digits (s : string) : bool :=
  match s with
  | EmptyString => true
  | String a s' => is_digit a && all_digits s'
  end.

(** ** Notions used in the statements *)

(** The true entries of the mask form a rectangle. *)
Definition box_shaped (m : mask) : Prop :=
  exists y0 y1 x0 x1 : nat,
    forall y x : nat,
      pixel m y x = true <-> ((y0 <= y < y1)%nat /\ (x0 <= x < x1)%nat).

(** Two random states that will produce the same raw values from now on. *)
Definition same_draws (g1 g2 : RandomState) : Prop :=
  forall k : nat, stream g1 (cursor g1 + k) = stream g2 (cursor g2 + k).

(** Two calls that raise the same error, or return the same value and leave
    random states that agree from then on. *)
Definition same_outcome {A : Type} (r1 r2 : result (A * RandomState)) : Prop :=
  match r1, r2 with
  | Ok (a1, g1), Ok (a2, g2) => a1 = a2 /\ same_draws g1 g2
  | Raise e1, Raise e2 => e1 = e2
  | _, _ => False
  end.

(** ** Proof automation *)

(** One pass through the loop body, case by case. *)
Ltac loop_cases self slide g :=
  let c := fresh "coords" in
  let g' := fresh "g'" in
  let e := fresh "e" in
  let tile := fresh "tile" in
  let Hc := fresh "Hcoords" in
  let Ht := fresh "Htile" in
  destruct (_random_tile_coordinates self slide g) as [[c g'] | e] eqn:Hc;
  [ destruct (extract_tile slide c (level self)) as [tile | e] eqn:Ht;
    [ | destruct e ]
  | ].

(** * Properties *)

(** ** Construction *)

(** C4. Whatever the other arguments, construction raises the assertion
    error when [max_iter < n_tiles], and otherwise succeeds with a tiler
    whose eight attributes are the eight arguments, unchanged. *)
Theorem init_enforces_budget_order :
  forall (ts : Z * Z) (n l s : Z) (c : bool) (p sf : string) (m : Z),
    (m < n -> __init__ ts n l s c p sf m = Raise AssertionError) /\
    (m >= n ->
     __init__ ts n l s c p sf m =
     Ok {| tile_size := ts; max_iter := m; level := l; n_tiles := n;
           seed := s; check_tissue := c; prefix := p; suffix := sf |}).
Proof.
  intros ts n l s c p sf m. unfold __init__.
  destruct (Z.geb_spec m n) as [Hge | Hlt]; split; intro H.
  - lia.
  - reflexivity.
  - reflexivity.
  - lia.
Qed.

Lemma init_enforces_budget_order_witness :
  __init__ (100, 100) 5 0 7 true "" ".png" 3 = Raise AssertionError /\
  __init__ (100, 100) 5 0 7 true "" ".png" 50 =
  Ok {| tile_size := (100, 100); max_iter := 50; level := 0; n_tiles := 5;
        seed := 7; check_tissue := true; prefix := ""; suffix := ".png" |}.
Proof.
  split.
  - apply (proj1 (init_enforces_budget_order (100, 100) 5 0 7 true "" ".png" 3)).
    lia.
  - apply (proj2 (init_enforces_budget_order (100, 100) 5 0 7 true "" ".png" 50)).
    lia.
Defined.

(** ** Coordinate transform *)

Lemma round_nearest_inject_Z : forall c : Z, round_nearest (inject_Z c) = c.
Proof.
  intro c. unfold round_nearest, Qfloor, Qplus, inject_Z. simpl.
  replace (c * 2 + 1) with (1 + c * 2) by lia.
  rewrite Z.div_add by lia. reflexivity.
Qed.

Lemma round_nearest_compat :
  forall p q : Q, p == q -> round_nearest p = round_nearest q.
Proof.
  intros p q H. unfold round_nearest. apply Qfloor_comp. rewrite H. reflexivity.
Qed.

Lemma scale_coordinate_same_dim :
  forall (c : Z) (d : nat), (0 < d)%nat -> scale_coordinate c d d = c.
Proof.
  intros c d Hd. unfold scale_coordinate.
  rewrite <- (round_nearest_inject_Z c) at 2.
  apply round_nearest_compat.
  assert (Hnz : ~ inject_Z (Z.of_nat d) == 0).
  { unfold Qeq, inject_Z. simpl. lia. }
  field. exact Hnz.
Qed.

(** C9. With the same (positive) dimensions as reference and as target, the
    transform returns the four coordinates it was given, exactly. *)
Theorem scale_coordinates_identity :
  forall (coords : CoordinatePair) (size : nat * nat),
    (0 < fst size)%nat -> (0 < snd size)%nat ->
    scale_coordinates coords size size = coords.
Proof.
  intros [xu yu xb yb] [w h] Hw Hh. unfold scale_coordinates. simpl in *.
  rewrite !scale_coordinate_same_dim by assumption. reflexivity.
Qed.

Lemma scale_coordinates_identity_witness :
  scale_coordinates (mkCoords (-3) 5 97 105) (1000, 800)%nat (1000, 800)%nat
  = mkCoords (-3) 5 97 105.
Proof.
  apply (scale_coordinates_identity (mkCoords (-3) 5 97 105) (1000, 800)%nat);
    simpl; lia.
Defined.

(** ** Box mask resolver *)

Lemma pixel_np_ones :
  forall (rows cols y x : nat),
    (y < rows)%nat -> (x < cols)%nat -> pixel (np_ones (rows, cols)) y x = true.
Proof.
  intros rows cols y x Hy Hx. unfold pixel, np_ones. simpl.
  rewrite nth_repeat_lt by exact Hy. apply nth_repeat_lt. exact Hx.
Qed.

Lemma scaled_index_in_range :
  forall i n src : nat, (i < n)%nat -> (0 < src)%nat -> (Nat.div (i * src) n < src)%nat.
Proof.
  intros i n src Hi Hsrc. apply Nat.Div0.div_lt_upper_bound. nia.
Qed.

Lemma map_all_equal :
  forall (A B : Type) (f : A -> B) (b : B) (l : list A),
    (forall a, In a l -> f a = b) -> map f l = repeat b (List.length l).
Proof.
  intros A B f b l H. rewrite <- map_const. apply map_ext_in. exact H.
Qed.

(** Resizing an all-true array with at least one pixel gives the all-true
    array of the requested dimensions. *)
Lemma resize_mask_np_ones :
  forall (rows cols w h : nat),
    (0 < rows)%nat -> (0 < cols)%nat ->
    resize_mask (np_ones (rows, cols)) (w, h) = np_ones (h, w).
Proof.
  intros rows cols w h Hrows Hcols. unfold resize_mask.
  assert (Hlen : List.length (np_ones (rows, cols)) = rows).
  { unfold np_ones. simpl. apply repeat_length. }
  assert (Hhd : List.length (hd [] (np_ones (rows, cols))) = cols).
  { unfold np_ones. simpl. destruct rows as [| r]; [lia |].
    simpl. apply repeat_length. }
  cbn [fst snd]. rewrite Hlen, Hhd.
  rewrite (map_all_equal _ _ _ (repeat true w) (seq 0 h)).
  - rewrite length_seq. reflexivity.
  - intros i Hi. apply in_seq in Hi.
    rewrite (map_all_equal _ _ _ true (seq 0 w)).
    + rewrite length_seq. reflexivity.
    + intros j Hj. apply in_seq in Hj.
      apply pixel_np_ones; apply scaled_index_in_range; lia.
Qed.

(** C7. Without the tissue check: at level 0 the resolver hands back the
    level-0 mask itself, which is the all-true array of shape
    [(height, width)] built from [slide.dimensions]; and on a slide with at
    least one pixel, whose level 0 has the slide's dimensions, the mask at
    the configured level is the all-true array whose shape is that level's
    [(height, width)]. *)
Theorem box_mask_lvl_all_true :
  forall (self : RandomTiler) (slide : Slide),
    check_tissue self = false ->
    (level self = 0 ->
     box_mask_lvl self slide = box_mask self slide /\
     box_mask self slide = np_ones (reversed (dimensions slide))) /\
    ((0 < fst (dimensions slide))%nat -> (0 < snd (dimensions slide))%nat ->
     level_dimensions slide 0 = dimensions slide ->
     box_mask_lvl self slide =
     np_ones (reversed (level_dimensions slide (level self)))).
Proof.
  intros self slide Hct. unfold box_mask_lvl, box_mask. rewrite Hct. split.
  - intro Hl. rewrite Hl. simpl. split; reflexivity.
  - intros Hw Hh H0. destruct (Z.eqb_spec (level self) 0) as [Hl | Hl]; simpl.
    + rewrite Hl, H0. reflexivity.
    + destruct (dimensions slide) as [w0 h0].
      destruct (level_dimensions slide (level self)) as [w h].
      unfold reversed. simpl in *. apply resize_mask_np_ones; assumption.
Qed.

Lemma box_mask_lvl_all_true_witness :
  box_mask_lvl (mkRandomTiler (1, 1) 10 0 5 7 false "" ".png") pyramid_slide
  = [[true; true; true; true]; [true; true; true; true]] /\
  box_mask_lvl (mkRandomTiler (1, 1) 10 1 5 7 false "" ".png") pyramid_slide
  = [[true; true]].
Proof.
  split.
  - pose proof (box_mask_lvl_all_true
                  (mkRandomTiler (1, 1) 10 0 5 7 false "" ".png") pyramid_slide
                  eq_refl) as [H0 _].
    destruct (H0 eq_refl) as [Ha Hb]. rewrite Ha, Hb. reflexivity.
  - pose proof (box_mask_lvl_all_true
                  (mkRandomTiler (1, 1) 10 1 5 7 false "" ".png") pyramid_slide
                  eq_refl) as [_ H1].
    rewrite H1; [reflexivity | simpl; lia | simpl; lia | reflexivity].
Defined.

(** ** The random coordinate draw *)

Lemma row_where_In :
  forall (row : list bool) (x0 x : nat),
    In x (row_where x0 row) <->
    (x0 <= x)%nat /\ nth (x - x0) row false = true.
Proof.
  induction row as [| b row IH]; intros x0 x; simpl.
  - split; [tauto |]. intros [_ H]. destruct (x - x0)%nat; discriminate.
  - assert (Hstep : In x (row_where (S x0) row) <->
                    (x0 < x)%nat /\ nth (x - x0) (b :: row) false = true).
    { rewrite IH. split; intros [Hle Hnth]; split; try lia.
      - replace (x - x0)%nat with (S (x - S x0)) by lia. exact Hnth.
      - replace (x - x0)%nat with (S (x - S x0)) in Hnth by lia. exact Hnth. }
    destruct b; simpl; rewrite Hstep; clear Hstep.
    + split.
      * intros [Heq | [Hlt Hnth]]; [subst x; rewrite Nat.sub_diag; simpl; auto | ].
        split; [lia | exact Hnth].
      * intros [Hle Hnth]. destruct (Nat.eq_dec x0 x) as [Heq | Hne]; [left; exact Heq |].
        right. split; [lia | exact Hnth].
    + split.
      * intros [Hlt Hnth]. split; [lia | exact Hnth].
      * intros [Hle Hnth]. split; [| exact Hnth].
        destruct (Nat.eq_dec x0 x) as [Heq | Hne]; [| lia].
        subst x. rewrite Nat.sub_diag in Hnth. simpl in Hnth. discriminate.
Qed.

Lemma on_pixels_In :
  forall (m : mask) (y0 y x : nat),
    In (y, x) (on_pixels y0 m) <->
    (y0 <= y)%nat /\ pixel m (y - y0) x = true.
Proof.
  unfold pixel. induction m as [| row m IH]; intros y0 y x; simpl.
  - split; [tauto |]. intros [_ H]. destruct (y - y0)%nat; destruct x; discriminate.
  - rewrite in_app_iff, in_map_iff, IH. split.
    + intros [[x' [Heq Hin]] | [Hle Hpix]].
      * inversion Heq; subst. apply row_where_In in Hin.
        rewrite Nat.sub_diag, Nat.sub_0_r in *. split; [lia | tauto].
      * split; [lia |].
        replace (y - y0)%nat with (S (y - S y0)) by lia. exact Hpix.
    + intros [Hle Hpix]. destruct (Nat.eq_dec y0 y) as [Heq | Hne].
      * left. subst y. rewrite Nat.sub_diag in Hpix. exists x. split; [reflexivity |].
        apply row_where_In. rewrite Nat.sub_0_r. split; [lia | exact Hpix].
      * right. split; [lia |].
        replace (y - y0)%nat with (S (y - S y0)) in Hpix by lia. exact Hpix.
Qed.

(** The entries listed by [np.where] are exactly the true pixels. *)
Lemma on_pixels_spec :
  forall (m : mask) (y x : nat),
    In (y, x) (on_pixels 0 m) <-> pixel m y x = true.
Proof.
  intros m y x. rewrite on_pixels_In, Nat.sub_0_r. split; [tauto |].
  intro H. split; [lia | exact H].
Qed.

Lemma row_where_NoDup :
  forall (row : list bool) (x0 : nat), NoDup (row_where x0 row).
Proof.
  induction row as [| b row IH]; intro x0; simpl.
  - constructor.
  - destruct b; [| apply IH].
    constructor; [| apply IH].
    intro Hin. apply row_where_In in Hin. lia.
Qed.

(** [np.where] lists every true pixel once. *)
Lemma on_pixels_NoDup :
  forall (m : mask) (y0 : nat), NoDup (on_pixels y0 m).
Proof.
  induction m as [| row m IH]; intro y0; simpl.
  - constructor.
  - apply NoDup_app.
    + induction (row_where_NoDup row 0) as [| x l Hx Hl IHl]; simpl.
      * constructor.
      * constructor; [| exact IHl].
        intro Hin. apply in_map_iff in Hin. destruct Hin as [x' [Heq Hin]].
        inversion Heq; subst. contradiction.
    + apply IH.
    + intros [y x] Hin Hin'. apply in_map_iff in Hin.
      destruct Hin as [x' [Heq _]]. inversion Heq; subst.
      apply on_pixels_In in Hin'. lia.
Qed.

(** A successful draw returns the element at the index given by the next
    raw value, and consumes that value. *)
Lemma np_random_choice_Ok :
  forall (a : list nat) (g g' : RandomState) (v : nat),
    np_random_choice a g = Ok (v, g') ->
    v = nth (Nat.modulo (stream g (cursor g)) (List.length a)) a 0%nat /\
    In v a /\
    g' = {| stream := stream g; cursor := S (cursor g) |}.
Proof.
  intros a g g' v H. unfold np_random_choice, randint in H.
  destruct a as [| d a']; [discriminate |].
  remember (d :: a') as a eqn:Ha. inversion H; subst v g'; clear H.
  assert (Hlt : (Nat.modulo (stream g (cursor g)) (List.length a) < List.length a)%nat).
  { apply Nat.mod_upper_bound. subst a. simpl. lia. }
  split; [apply nth_indep; exact Hlt |].
  split; [apply nth_In; exact Hlt | reflexivity].
Qed.

(** C5, as the code has it.  The column [x] and the row [y] are drawn one
    after the other, each with its own raw value, each by an index into the
    list that holds one candidate per true entry of the mask: the column
    indices of the true entries for [x], their row indices for [y].  So
    column [x] holds a true pixel and row [y] holds a true pixel; and [(x, y)]
    is itself a true pixel when the true entries form a rectangle.  The
    candidates are the true pixels, each listed once. *)
Theorem random_upper_left_marginals :
  forall (m : mask) (g g' : RandomState) (x y : nat),
    random_upper_left m g = Ok (x, y, g') ->
    let n := List.length (on_pixels 0 m) in
    x = nth (Nat.modulo (stream g (cursor g)) n) (map snd (on_pixels 0 m)) 0%nat /\
    y = nth (Nat.modulo (stream g (S (cursor g))) n) (map fst (on_pixels 0 m)) 0%nat /\
    (exists y', pixel m y' x = true) /\
    (exists x', pixel m y x' = true) /\
    (box_shaped m -> pixel m y x = true) /\
    NoDup (on_pixels 0 m) /\
    (forall y' x', In (y', x') (on_pixels 0 m) <-> pixel m y' x' = true).
Proof.
  intros m g g' x y H n. unfold random_upper_left, np_where in H. simpl in H.
  destruct (np_random_choice (map snd (on_pixels 0 m)) g) as [[x1 g1] | e] eqn:Hx;
    simpl in H; [| discriminate].
  destruct (np_random_choice (map fst (on_pixels 0 m)) g1) as [[y1 g2] | e] eqn:Hy;
    simpl in H; [| discriminate].
  inversion H; subst x1 y1 g2; clear H.
  apply np_random_choice_Ok in Hx. destruct Hx as [Hxv [Hxin Hg1]].
  apply np_random_choice_Ok in Hy. destruct Hy as [Hyv [Hyin Hg2]].
  rewrite length_map in Hxv, Hyv. subst g1. simpl in Hyv.
  apply in_map_iff in Hxin. destruct Hxin as [[ya xa] [Hxa Hina]].
  apply in_map_iff in Hyin. destruct Hyin as [[yb xb] [Hyb Hinb]].
  simpl in Hxa, Hyb. subst xa yb.
  apply on_pixels_spec in Hina. apply on_pixels_spec in Hinb.
  split; [exact Hxv |]. split; [exact Hyv |].
  split; [exists ya; exact Hina |]. split; [exists xb; exact Hinb |].
  split; [| split; [apply on_pixels_NoDup | apply on_pixels_spec]].
  intros [y0 [y1 [x0 [x1 Hbox]]]].
  apply Hbox. apply Hbox in Hina. apply Hbox in Hinb. tauto.
Qed.

Lemma random_upper_left_marginals_witness :
  pixel [[true; true]; [true; true]] 1 1 = true.
Proof.
  pose proof (random_upper_left_marginals
                [[true; true]; [true; true]]
                (mkRandomState (fun k => k) 1) (mkRandomState (fun k => k) 3)
                1%nat 1%nat eq_refl) as H.
  simpl in H. destruct H as [_ [_ [_ [_ [Hbox _]]]]].
  apply Hbox. exists 0%nat, 2%nat, 0%nat, 2%nat.
  intros y x. split; intro H.
  - destruct y as [| [| y]]; destruct x as [| [| x]]; try (simpl; lia);
      exfalso; simpl in H; try (destruct x; discriminate H);
      destruct y; simpl in H; discriminate H.
  - apply (pixel_np_ones 2 2); lia.
Defined.

(** C5 as stated fails: on the diagonal mask the draw can return column 1
    and row 0, and the pixel of row 0, column 1 is off. *)
Lemma random_tile_coordinates_off_mask :
  box_mask_lvl (tiler 1 1 true) diagonal_slide = diagonal_mask /\
  random_upper_left diagonal_mask (mkRandomState (fun k => k) 1)
  = Ok (1%nat, 0%nat, mkRandomState (fun k => k) 3) /\
  _random_tile_coordinates (tiler 1 1 true) diagonal_slide
                           (mkRandomState (fun k => k) 1)
  = Ok (mkCoords 1 0 2 1, mkRandomState (fun k => k) 3) /\
  pixel diagonal_mask 0 1 = false.
Proof.
  repeat split; vm_compute; reflexivity.
Qed.

(** ** The rejection-sampling loop *)

(** C3. When the tile extraction of an attempt raises [ValueError], the pass
    is the same as entering the loop again with both counters as they were
    and the random state left by the draw: nothing is yielded for the
    attempt, the attempt counter is back to its value, and no error leaves
    the generator on account of it. *)
Theorem invalid_region_attempt_discarded :
  forall (self : RandomTiler) (slide : Slide) (fuel : nat)
         (iteration valid_tile_counter : Z) (g g' : RandomState)
         (tile_wsi_coords : CoordinatePair),
    _random_tile_coordinates self slide g = Ok (tile_wsi_coords, g') ->
    extract_tile slide tile_wsi_coords (level self) = Raise ValueError ->
    tiles_loop self slide (S fuel) iteration valid_tile_counter g =
    tiles_loop self slide fuel iteration valid_tile_counter g'.
Proof.
  intros self slide fuel iteration valid_tile_counter g g' c Hc He.
  simpl. rewrite Hc, He.
  replace (iteration + 1 - 1) with iteration by lia. reflexivity.
Qed.

Lemma invalid_region_attempt_discarded_witness :
  tiles_loop (mkRandomTiler (2, 2) 1 0 1 7 false "" ".png") fenced_slide 4 0 0
             (mkRandomState (fun k => k) 1) =
  tiles_loop (mkRandomTiler (2, 2) 1 0 1 7 false "" ".png") fenced_slide 3 0 0
             (mkRandomState (fun k => k) 3).
Proof.
  apply (invalid_region_attempt_discarded
           (mkRandomTiler (2, 2) 1 0 1 7 false "" ".png") fenced_slide 3 0 0
           (mkRandomState (fun k => k) 1) (mkRandomState (fun k => k) 3)
           (mkCoords 1 1 3 3)); reflexivity.
Defined.

(** What does hold of the two counters.  From a loop entry with the
    accepted-tile counter within [n_tiles], at most [n_tiles + 1] tiles are
    on record when the run ends, however it ends. *)
Lemma tiles_loop_yield_bound :
  forall (self : RandomTiler) (slide : Slide) (fuel : nat) (iteration v : Z)
         (g : RandomState) (ys : list (Tile * CoordinatePair)) (e : gen_end),
    tiles_loop self slide fuel iteration v g = (ys, e) ->
    v <= n_tiles self ->
    v + Z.of_nat (List.length ys) <= n_tiles self + 1.
Proof.
  intros self slide fuel. induction fuel as [| fuel IH];
    intros iteration v g ys e H Hv; simpl in H.
  - inversion H; subst. simpl. lia.
  - loop_cases self slide g; try (inversion H; subst; simpl; lia).
    + destruct (negb (check_tissue self) || has_enough_tissue tile);
        destruct (budget_exhausted self (iteration + 1));
        try (inversion H; subst; simpl; lia);
        match type of H with
        | context [?a >? n_tiles self] =>
          destruct (Z.gtb_spec a (n_tiles self)) as [Hgt | Hle];
            [inversion H; subst; simpl; lia |]
        end;
        match type of H with
        | context [tiles_loop self slide fuel ?i ?w ?s] =>
          destruct (tiles_loop self slide fuel i w s) as [rest e'] eqn:Hrec
        end;
        inversion H; subst; (apply IH in Hrec; [| lia]);
        simpl; rewrite ?length_app; simpl; lia.
    + apply IH in H; assumption.
Qed.

(** A run that stops normally reports as its accepted-tile counter the
    number of tiles it yielded, and, when [max_iter] is not zero, an attempt
    counter of at most [max_iter + 1]. *)
Lemma tiles_loop_stop_counters :
  forall (self : RandomTiler) (slide : Slide) (fuel : nat) (iteration v : Z)
         (g : RandomState) (ys : list (Tile * CoordinatePair))
         (iteration' v' : Z),
    tiles_loop self slide fuel iteration v g = (ys, StopIteration iteration' v') ->
    v' = v + Z.of_nat (List.length ys) /\
    (max_iter self <> 0 -> iteration <= max_iter self ->
     iteration' <= max_iter self + 1).
Proof.
  intros self slide fuel. induction fuel as [| fuel IH];
    intros iteration v g ys iteration' v' H; simpl in H.
  - discriminate.
  - loop_cases self slide g; try discriminate.
    + unfold budget_exhausted, truthy in H.
      destruct (negb (check_tissue self) || has_enough_tissue tile);
        destruct (Z.eqb_spec (max_iter self) 0) as [Hz | Hnz];
        destruct (Z.gtb_spec (iteration + 1) (max_iter self)) as [Hgt | Hle];
        simpl in H;
        try (inversion H; subst; simpl; split; lia);
        match type of H with
        | context [?a >? n_tiles self] =>
          destruct (Z.gtb_spec a (n_tiles self)) as [Hgt' | Hle'];
            [inversion H; subst; simpl; split; lia |]
        end;
        match type of H with
        | context [tiles_loop self slide fuel ?i ?w ?s] =>
          destruct (tiles_loop self slide fuel i w s) as [rest e'] eqn:Hrec
        end;
        inversion H; subst; apply IH in Hrec; destruct Hrec as [Hv' Hit];
        simpl; rewrite ?length_app; simpl; split; lia.
    + replace (iteration + 1 - 1) with iteration in H by lia.
      apply IH in H. exact H.
Qed.

(** C1, at an input that breaks it.  A tiler built with [n_tiles = 1] and
    [max_iter = 1], without tissue check, on a slide whose every extraction
    succeeds: the generator yields two tiles and stops with both counters
    at 2, one past each budget. *)
Theorem generator_overshoots_both_budgets :
  __init__ (1, 1) 1 0 7 false "" ".png" 1 = Ok (tiler 1 1 false) /\
  exists ys : list (Tile * CoordinatePair),
    _random_tiles_generator (tiler 1 1 false) (uniform_slide true) 10
                            (np_random_seed counting_prng 7)
    = (ys, StopIteration 2 2) /\
    Z.of_nat (List.length ys) > n_tiles (tiler 1 1 false) /\
    2 > max_iter (tiler 1 1 false).
Proof.
  split; [reflexivity |].
  eexists. split; [vm_compute; reflexivity |].
  split; reflexivity.
Qed.

(** On a mask with a true pixel the coordinate draw never raises. *)
Lemma random_tile_coordinates_total :
  forall (self : RandomTiler) (slide : Slide) (g : RandomState),
    on_pixels 0 (box_mask_lvl self slide) <> [] ->
    exists c g', _random_tile_coordinates self slide g = Ok (c, g').
Proof.
  intros self slide g Hne. unfold _random_tile_coordinates, random_upper_left, np_where.
  destruct (tile_size self) as [tw th].
  destruct (on_pixels 0 (box_mask_lvl self slide)) as [| [y x] rest];
    [contradiction |].
  simpl. eexists. eexists. reflexivity.
Qed.

(** On a mask with no true pixel the coordinate draw raises [ValueError]. *)
Lemma random_tile_coordinates_empty_mask :
  forall (self : RandomTiler) (slide : Slide) (g : RandomState),
    on_pixels 0 (box_mask_lvl self slide) = [] ->
    _random_tile_coordinates self slide g = Raise ValueError.
Proof.
  intros self slide g He. unfold _random_tile_coordinates, random_upper_left, np_where.
  destruct (tile_size self) as [tw th]. rewrite He. reflexivity.
Qed.

(** With [max_iter = 0] a normal stop can only come from the second test. *)
Lemma zero_budget_stop_needs_tiles :
  forall (self : RandomTiler) (slide : Slide),
    max_iter self = 0 ->
    forall (fuel : nat) (iteration v : Z) (g : RandomState)
           (ys : list (Tile * CoordinatePair)) (iteration' v' : Z),
      tiles_loop self slide fuel iteration v g = (ys, StopIteration iteration' v') ->
      v' > n_tiles self.
Proof.
  intros self slide Hm fuel. induction fuel as [| fuel IH];
    intros iteration v g ys iteration' v' H; simpl in H.
  - discriminate.
  - loop_cases self slide g; try discriminate.
    + unfold budget_exhausted, truthy in H. rewrite Hm in H. simpl in H.
      destruct (negb (check_tissue self) || has_enough_tissue tile);
        match type of H with
        | context [?a >? n_tiles self] =>
          destruct (Z.gtb_spec a (n_tiles self)) as [Hgt | Hle];
            [inversion H; subst; lia |]
        end;
        match type of H with
        | context [tiles_loop self slide fuel ?i ?w ?s] =>
          destruct (tiles_loop self slide fuel i w s) as [rest e'] eqn:Hrec
        end;
        inversion H; subst; apply IH in Hrec; exact Hrec.
    + apply IH in H. exact H.
Qed.

(** With [max_iter = 0], the tissue check on and no tile passing it, the loop
    uses up any amount of fuel without yielding. *)
Lemma zero_budget_loop_spins :
  forall (self : RandomTiler) (slide : Slide),
    max_iter self = 0 ->
    0 <= n_tiles self ->
    check_tissue self = true ->
    on_pixels 0 (box_mask_lvl self slide) <> [] ->
    (forall c e, extract_tile slide c (level self) = Raise e -> e = ValueError) ->
    (forall c tile, extract_tile slide c (level self) = Ok tile ->
                    has_enough_tissue tile = false) ->
    forall (fuel : nat) (iteration : Z) (g : RandomState),
      tiles_loop self slide fuel iteration 0 g = ([], OutOfFuel).
Proof.
  intros self slide Hm Hn Hct Hmask Herr Htissue fuel.
  induction fuel as [| fuel IH]; intros iteration g; simpl.
  - reflexivity.
  - destruct (random_tile_coordinates_total self slide g Hmask) as [c [g' Hc]].
    rewrite Hc.
    destruct (extract_tile slide c (level self)) as [tile | e] eqn:Ht.
    + rewrite (Htissue _ _ Ht), Hct. simpl.
      unfold budget_exhausted, truthy. rewrite Hm. simpl.
      destruct (Z.gtb_spec 0 (n_tiles self)) as [Hgt | Hle]; [lia |].
      rewrite IH. reflexivity.
    + rewrite (Herr _ _ Ht). apply IH.
Qed.

(** C10. Construction accepts [max_iter = 0] together with [n_tiles = 0].
    For a tiler with [max_iter = 0]: the attempt-budget test is false at
    every value of the attempt counter; a run that stops normally does so
    with the accepted-tile counter above [n_tiles]; and, with the tissue
    check on, on a slide whose mask has a true pixel and whose extractions
    either are refused as invalid regions or give a tile that fails the
    tissue check, the generator yields nothing and is still running after
    any number of passes. *)
Theorem zero_max_iter_disables_budget :
  (forall (ts : Z * Z) (l s : Z) (c : bool) (p sf : string),
      __init__ ts 0 l s c p sf 0 =
      Ok {| tile_size := ts; max_iter := 0; level := l; n_tiles := 0;
            seed := s; check_tissue := c; prefix := p; suffix := sf |}) /\
  forall (self : RandomTiler) (slide : Slide),
    max_iter self = 0 ->
    (forall iteration : Z, budget_exhausted self iteration = false) /\
    (forall (fuel : nat) (g : RandomState)
            (ys : list (Tile * CoordinatePair)) (iteration' v' : Z),
        _random_tiles_generator self slide fuel g
        = (ys, StopIteration iteration' v') ->
        v' > n_tiles self) /\
    (n_tiles self = 0 ->
     check_tissue self = true ->
     on_pixels 0 (box_mask_lvl self slide) <> [] ->
     (forall c e, extract_tile slide c (level self) = Raise e -> e = ValueError) ->
     (forall c tile, extract_tile slide c (level self) = Ok tile ->
                     has_enough_tissue tile = false) ->
     forall (fuel : nat) (g : RandomState),
       _random_tiles_generator self slide fuel g = ([], OutOfFuel)).
Proof.
  split; [reflexivity |].
  intros self slide Hm. split; [| split].
  - intro iteration. unfold budget_exhausted, truthy. rewrite Hm. reflexivity.
  - intros fuel g ys iteration' v' H.
    exact (zero_budget_stop_needs_tiles self slide Hm fuel 0 0 g ys iteration' v' H).
  - intros Hn Hct Hmask Herr Htissue fuel g. unfold _random_tiles_generator.
    apply zero_budget_loop_spins; try assumption. lia.
Qed.

Lemma zero_max_iter_disables_budget_witness :
  budget_exhausted (tiler 0 0 true) 1000 = false /\
  1 > n_tiles (tiler 0 0 false) /\
  _random_tiles_generator (tiler 0 0 true) (uniform_slide false) 25
                          (np_random_seed counting_prng 7)
  = ([], OutOfFuel).
Proof.
  destruct (proj2 zero_max_iter_disables_budget
                  (tiler 0 0 true) (uniform_slide false) eq_refl)
    as [Hbudget [_ Hspin]].
  destruct (proj2 zero_max_iter_disables_budget
                  (tiler 0 0 false) (uniform_slide true) eq_refl)
    as [_ [Hstop _]].
  split; [apply Hbudget |]. split.
  - apply (Hstop 5%nat (np_random_seed counting_prng 7)
                 [({| image := 0; has_enough_tissue := true |}, mkCoords 1 0 2 1)]
                 1 1).
    reflexivity.
  - apply Hspin.
    + reflexivity.
    + reflexivity.
    + discriminate.
    + intros c e H. discriminate H.
    + intros c tile H. inversion H. reflexivity.
Defined.

(** ** The extraction driver *)

(** C2 as stated fails: on a slide whose mask has no true pixel, with the
    tissue check on, [extract] ends with the [ValueError] of the first
    coordinate draw and prints no summary. *)
Lemma extract_blank_slide_raises :
  on_pixels 0 (box_mask_lvl (tiler 1 1 true) blank_slide) = [] /\
  extract counting_prng 10 (tiler 1 1 true) blank_slide
          (np_random_seed counting_prng 0)
  = {| saved := []; stdout := []; status := Raised ValueError |} /\
  status (extract counting_prng 10 (tiler 1 1 true) blank_slide
                  (np_random_seed counting_prng 0)) <> Completed.
Proof.
  split; [reflexivity |]. split; [reflexivity |].
  vm_compute. discriminate.
Qed.

(** C2, as the code has it.  When the generator stops normally without
    having yielded a tile, [extract] completes, writes no file and prints
    the one summary line, with count 0.  When the mask at the target level
    has no true pixel, the generator does not get that far: the first
    coordinate draw raises [ValueError], outside the handler of the loop, and
    [extract] ends with that error, having written and printed nothing. *)
Theorem extract_without_tiles :
  forall (prng : Z -> nat -> nat) (fuel : nat) (self : RandomTiler)
         (slide : Slide) (ambient : RandomState),
    (forall iteration v : Z,
        _random_tiles_generator self slide fuel (np_random_seed prng (seed self))
        = ([], StopIteration iteration v) ->
        extract prng fuel self slide ambient
        = {| saved := [];
             stdout := ["0 Random Tiles have been saved."%string];
             status := Completed |}) /\
    (on_pixels 0 (box_mask_lvl self slide) = [] ->
     extract prng (S fuel) self slide ambient
     = {| saved := []; stdout := []; status := Raised ValueError |}).
Proof.
  intros prng fuel self slide ambient. split.
  - intros iteration v H. unfold extract. rewrite H. reflexivity.
  - intro Hempty. unfold extract, _random_tiles_generator. simpl.
    rewrite (random_tile_coordinates_empty_mask self slide _ Hempty).
    reflexivity.
Qed.

Lemma extract_without_tiles_witness :
  extract counting_prng 10 (tiler 1 3 true) (uniform_slide false)
          (np_random_seed counting_prng 0)
  = {| saved := [];
       stdout := ["0 Random Tiles have been saved."%string];
       status := Completed |} /\
  extract counting_prng 10 (tiler 1 1 true) blank_slide
          (np_random_seed counting_prng 0)
  = {| saved := []; stdout := []; status := Raised ValueError |}.
Proof.
  split.
  - apply (proj1 (extract_without_tiles counting_prng 10 (tiler 1 3 true)
                    (uniform_slide false) (np_random_seed counting_prng 0))
                 4 0).
    reflexivity.
  - apply (proj2 (extract_without_tiles counting_prng 9 (tiler 1 1 true)
                    blank_slide (np_random_seed counting_prng 0))).
    reflexivity.
Defined.

Lemma same_draws_next :
  forall g1 g2 : RandomState,
    same_draws g1 g2 ->
    same_draws {| stream := stream g1; cursor := S (cursor g1) |}
               {| stream := stream g2; cursor := S (cursor g2) |}.
Proof.
  intros g1 g2 H k. simpl.
  specialize (H (S k)). rewrite !Nat.add_succ_r in H. exact H.
Qed.

Lemma np_random_choice_same_draws :
  forall (a : list nat) (g1 g2 : RandomState),
    same_draws g1 g2 ->
    same_outcome (np_random_choice a g1) (np_random_choice a g2).
Proof.
  intros a g1 g2 H. unfold np_random_choice, randint.
  destruct a as [| d a']; simpl; [reflexivity |].
  pose proof (H 0%nat) as H0. rewrite !Nat.add_0_r in H0. rewrite H0.
  split; [reflexivity | apply same_draws_next; exact H].
Qed.

Lemma random_upper_left_same_draws :
  forall (m : mask) (g1 g2 : RandomState),
    same_draws g1 g2 ->
    same_outcome (random_upper_left m g1) (random_upper_left m g2).
Proof.
  intros m g1 g2 H. unfold random_upper_left.
  generalize (snd (np_where m)) as cols, (fst (np_where m)) as rows.
  intros cols rows.
  pose proof (np_random_choice_same_draws cols g1 g2 H) as Hx.
  destruct (np_random_choice cols g1) as [[x1 h1] | e1];
    destruct (np_random_choice cols g2) as [[x2 h2] | e2];
    simpl in Hx |- *; try contradiction; [| exact Hx].
  destruct Hx as [Hxeq Hh]. subst x2.
  pose proof (np_random_choice_same_draws rows h1 h2 Hh) as Hy.
  destruct (np_random_choice rows h1) as [[y1 k1] | e1];
    destruct (np_random_choice rows h2) as [[y2 k2] | e2];
    simpl in Hy |- *; try contradiction; [| exact Hy].
  destruct Hy as [Hyeq Hk]. subst y2. split; [reflexivity | exact Hk].
Qed.

Lemma random_tile_coordinates_same_draws :
  forall (self : RandomTiler) (slide : Slide) (g1 g2 : RandomState),
    same_draws g1 g2 ->
    same_outcome (_random_tile_coordinates self slide g1)
                 (_random_tile_coordinates self slide g2).
Proof.
  intros self slide g1 g2 H. unfold _random_tile_coordinates.
  destruct (tile_size self) as [tw th].
  pose proof (random_upper_left_same_draws (box_mask_lvl self slide) g1 g2 H) as Hul.
  destruct (random_upper_left (box_mask_lvl self slide) g1) as [[[x1 y1] h1] | e1];
    destruct (random_upper_left (box_mask_lvl self slide) g2) as [[[x2 y2] h2] | e2];
    simpl in Hul |- *; try contradiction; [| exact Hul].
  destruct Hul as [Heq Hh]. inversion Heq; subst. split; [reflexivity | exact Hh].
Qed.

(** The loop depends on the random state only through the raw values still
    to be drawn. *)
Lemma tiles_loop_same_draws :
  forall (self : RandomTiler) (slide : Slide) (fuel : nat) (iteration v : Z)
         (g1 g2 : RandomState),
    same_draws g1 g2 ->
    tiles_loop self slide fuel iteration v g1 =
    tiles_loop self slide fuel iteration v g2.
Proof.
  intros self slide fuel. induction fuel as [| fuel IH];
    intros iteration v g1 g2 H; simpl; [reflexivity |].
  pose proof (random_tile_coordinates_same_draws self slide g1 g2 H) as Hc.
  destruct (_random_tile_coordinates self slide g1) as [[c1 h1] | e1];
    destruct (_random_tile_coordinates self slide g2) as [[c2 h2] | e2];
    simpl in Hc; try contradiction; [| subst e2; reflexivity].
  destruct Hc as [Hceq Hh]. subst c2.
  destruct (extract_tile slide c1 (level self)) as [tile | [ | | ]];
    try reflexivity.
  - destruct (negb (check_tissue self) || has_enough_tissue tile);
      rewrite (IH _ _ h1 h2 Hh); reflexivity.
  - apply IH. exact Hh.
Qed.

(** C6. [extract] seeds the random state before anything else, so what it
    does is fixed by the seed, the slide and the configuration: two runs,
    started from any two ambient random states, with generators that give the
    same raw stream for the tiler's seed, end the same way, having saved the
    same tiles under the same file names, in the same order. *)
Theorem extract_reproducible :
  forall (prng1 prng2 : Z -> nat -> nat) (fuel : nat) (self : RandomTiler)
         (slide : Slide) (ambient1 ambient2 : RandomState),
    (forall k : nat, prng1 (seed self) k = prng2 (seed self) k) ->
    extract prng1 fuel self slide ambient1 = extract prng2 fuel self slide ambient2.
Proof.
  intros prng1 prng2 fuel self slide ambient1 ambient2 Hseed.
  unfold extract, _random_tiles_generator.
  rewrite (tiles_loop_same_draws self slide fuel 0 0
             (np_random_seed prng1 (seed self))
             (np_random_seed prng2 (seed self))).
  - reflexivity.
  - intro k. simpl. apply Hseed.
Qed.

Lemma extract_reproducible_witness :
  extract counting_prng 10 (tiler 2 5 false) (uniform_slide true)
          (mkRandomState (fun k => k) 4)
  = extract (fun s k => (k + Z.to_nat s)%nat) 10 (tiler 2 5 false)
            (uniform_slide true) (mkRandomState (fun _ => 0%nat) 9).
Proof.
  apply (extract_reproducible counting_prng (fun s k => (k + Z.to_nat s)%nat)
           10 (tiler 2 5 false) (uniform_slide true)
           (mkRandomState (fun k => k) 4) (mkRandomState (fun _ => 0%nat) 9)).
  intro k. unfold counting_prng. lia.
Defined.

(** Without the seeding the generator does depend on the ambient state. *)
Example generator_depends_on_random_state :
  fst (_random_tiles_generator (tiler 0 5 false) (uniform_slide true) 10
                               (mkRandomState (fun k => k) 0))
  <> fst (_random_tiles_generator (tiler 0 5 false) (uniform_slide true) 10
                                  (mkRandomState (fun k => k) 1)).
Proof.
  vm_compute. discriminate.
Qed.

Example str_examples :
  str 0 = "0"%string /\ str 407 = "407"%string /\ str (-12) = "-12"%string.
Proof. repeat split. Qed.

Lemma save_tiles_nth_error :
  forall (self : RandomTiler) (ys : list (Tile * CoordinatePair))
         (n k : nat) (tile : Tile) (box : CoordinatePair),
    nth_error ys k = Some (tile, box) ->
    nth_error (fst (save_tiles self n ys)) k
    = Some (_tile_filename self box (n + k), tile).
Proof.
  intros self ys. induction ys as [| [t c] ys IH]; intros n k tile box H.
  - destruct k; discriminate.
  - simpl. destruct (save_tiles self (S n) ys) as [files lines] eqn:Hrest.
    destruct k as [| k]; simpl in *.
    + inversion H; subst. rewrite Nat.add_0_r. reflexivity.
    + specialize (IH (S n) k tile box H). rewrite Hrest in IH. simpl in IH.
      rewrite IH. rewrite Nat.add_succ_r. reflexivity.
Qed.

Lemma extract_saved :
  forall (prng : Z -> nat -> nat) (fuel : nat) (self : RandomTiler)
         (slide : Slide) (ambient : RandomState)
         (ys : list (Tile * CoordinatePair)) (e : gen_end),
    _random_tiles_generator self slide fuel (np_random_seed prng (seed self))
    = (ys, e) ->
    saved (extract prng fuel self slide ambient) = fst (save_tiles self 0 ys).
Proof.
  intros prng fuel self slide ambient ys e H. unfold extract. rewrite H.
  destruct (save_tiles self 0 ys) as [files lines].
  destruct e; reflexivity.
Qed.

(** C8. The tile that the generator yields in position [k], counting from
    zero, is saved by [extract] as the [k]-th file, under the name made of
    the prefix, [tile_], [k], [_level], the level, [_], the four level-0
    coordinates of its box separated by [-], and the suffix. *)
Theorem extract_file_names :
  forall (prng : Z -> nat -> nat) (fuel : nat) (self : RandomTiler)
         (slide : Slide) (ambient : RandomState)
         (ys : list (Tile * CoordinatePair)) (e : gen_end)
         (k : nat) (tile : Tile) (x_ul_wsi y_ul_wsi x_br_wsi y_br_wsi : Z),
    _random_tiles_generator self slide fuel (np_random_seed prng (seed self))
    = (ys, e) ->
    nth_error ys k = Some (tile, mkCoords x_ul_wsi y_ul_wsi x_br_wsi y_br_wsi) ->
    nth_error (saved (extract prng fuel self slide ambient)) k
    = Some ((prefix self ++ "tile_" ++ str (Z.of_nat k)
               ++ "_level" ++ str (level self)
               ++ "_" ++ str x_ul_wsi ++ "-" ++ str y_ul_wsi
               ++ "-" ++ str x_br_wsi ++ "-" ++ str y_br_wsi
               ++ suffix self)%string,
            tile).
Proof.
  intros prng fuel self slide ambient ys e k tile xu yu xb yb Hgen Hk.
  rewrite (extract_saved prng fuel self slide ambient ys e Hgen).
  rewrite (save_tiles_nth_error self ys 0 k tile _ Hk).
  reflexivity.
Qed.

Lemma extract_file_names_witness :
  nth_error (saved (extract counting_prng 10 (tiler 1 1 false)
                            (uniform_slide true)
                            (np_random_seed counting_prng 0))) 1
  = Some ("tile_1_level0_1-1-2-2.png"%string,
          {| image := 0; has_enough_tissue := true |}).
Proof.
  apply (extract_file_names counting_prng 10 (tiler 1 1 false)
           (uniform_slide true) (np_random_seed counting_prng 0)
           [({| image := 0; has_enough_tissue := true |}, mkCoords 1 0 2 1);
            ({| image := 0; has_enough_tissue := true |}, mkCoords 1 1 2 2)]
           (StopIteration 2 2) 1%nat
           {| image := 0; has_enough_tissue := true |} 1 1 2 2);
    reflexivity.
Defined.

(** * Further properties of the sampler *)

(** ** Counters of a run that stops *)

(** From any loop entry: a normal stop is caused by one of the two tests, at
    least one attempt has been counted since the entry, and no more tiles
    were accepted than attempts were counted. *)
Lemma tiles_loop_stop_reason :
  forall (self : RandomTiler) (slide : Slide) (fuel : nat) (iteration v : Z)
         (g : RandomState) (ys : list (Tile * CoordinatePair))
         (iteration' v' : Z),
    tiles_loop self slide fuel iteration v g = (ys, StopIteration iteration' v') ->
    iteration + 1 <= iteration' /\
    v' - v <= iteration' - iteration /\
    (budget_exhausted self iteration' = true \/ v' > n_tiles self).
Proof.
  intros self slide fuel. induction fuel as [| fuel IH];
    intros iteration v g ys iteration' v' H; simpl in H.
  - discriminate.
  - loop_cases self slide g; try discriminate.
    + destruct (negb (check_tissue self) || has_enough_tissue tile);
        destruct (budget_exhausted self (iteration + 1)) eqn:Hb;
        try (inversion H; subst; rewrite Hb; repeat split; try lia; left;
             reflexivity);
        match type of H with
        | context [?a >? n_tiles self] =>
          destruct (Z.gtb_spec a (n_tiles self)) as [Hgt | Hle];
            [inversion H; subst; repeat split; try lia; right; lia |]
        end;
        match type of H with
        | context [tiles_loop self slide fuel ?i ?w ?s] =>
          destruct (tiles_loop self slide fuel i w s) as [rest e'] eqn:Hrec
        end;
        inversion H; subst; apply IH in Hrec;
        destruct Hrec as [Hit [Hv Hwhy]]; repeat split; try lia; exact Hwhy.
    + replace (iteration + 1 - 1) with iteration in H by lia.
      apply IH in H. exact H.
Qed.

(** X1. When the generator stops normally, its accepted-tile counter is the
    number of tiles it yielded, at least one attempt was counted, the
    accepted tiles are no more than the counted attempts, and the stop is due
    to the attempt test or to the tile test.  With a positive [max_iter] the
    attempt counter is at most [max_iter + 1]; with a non-negative [n_tiles]
    the tiles are at most [n_tiles + 1]. *)
Theorem generator_stop_counters :
  forall (self : RandomTiler) (slide : Slide) (fuel : nat) (g : RandomState)
         (ys : list (Tile * CoordinatePair)) (iteration v : Z),
    _random_tiles_generator self slide fuel g = (ys, StopIteration iteration v) ->
    v = Z.of_nat (List.length ys) /\
    1 <= iteration /\
    v <= iteration /\
    (budget_exhausted self iteration = true \/ v > n_tiles self) /\
    (0 < max_iter self -> iteration <= max_iter self + 1) /\
    (0 <= n_tiles self -> v <= n_tiles self + 1).
Proof.
  intros self slide fuel g ys iteration v H. unfold _random_tiles_generator in H.
  destruct (tiles_loop_stop_counters _ _ _ _ _ _ _ _ _ H) as [Hv Hit].
  destruct (tiles_loop_stop_reason _ _ _ _ _ _ _ _ _ H) as [H1 [Hle Hwhy]].
  pose proof (tiles_loop_yield_bound _ _ _ _ _ _ _ _ H) as Hy.
  repeat split; try lia; exact Hwhy.
Qed.

Lemma generator_stop_counters_witness :
  3 = Z.of_nat 3 /\ 1 <= 3 /\ 3 <= 3 /\
  (budget_exhausted (tiler 2 5 false) 3 = true \/ 3 > n_tiles (tiler 2 5 false)) /\
  (0 < max_iter (tiler 2 5 false) -> 3 <= max_iter (tiler 2 5 false) + 1) /\
  (0 <= n_tiles (tiler 2 5 false) -> 3 <= n_tiles (tiler 2 5 false) + 1).
Proof.
  apply (generator_stop_counters (tiler 2 5 false) (uniform_slide true) 10
           (np_random_seed counting_prng 7)
           [({| image := 0; has_enough_tissue := true |}, mkCoords 1 0 2 1);
            ({| image := 0; has_enough_tissue := true |}, mkCoords 1 1 2 2);
            ({| image := 0; has_enough_tissue := true |}, mkCoords 1 0 2 1)]
           3 3).
  reflexivity.
Defined.

(** ** Termination and non-termination *)

(** A pass whose extraction is refused, unfolded. *)
Lemma invalid_region_discard_step :
  forall (self : RandomTiler) (slide : Slide) (fuel : nat)
         (iteration valid_tile_counter : Z) (g g' : RandomState)
         (tile_wsi_coords : CoordinatePair),
    _random_tile_coordinates self slide g = Ok (tile_wsi_coords, g') ->
    extract_tile slide tile_wsi_coords (level self) = Raise ValueError ->
    tiles_loop self slide (S fuel) iteration valid_tile_counter g =
    tiles_loop self slide fuel iteration valid_tile_counter g'.
Proof.
  intros self slide fuel iteration v g g' c Hc He.
  cbn [tiles_loop]. rewrite Hc, He. f_equal. lia.
Qed.

Lemma tiles_loop_ends_within_budget :
  forall (self : RandomTiler) (slide : Slide),
    (forall c, extract_tile slide c (level self) <> Raise ValueError) ->
    forall (fuel : nat) (iteration v : Z) (g : RandomState),
      iteration <= max_iter self ->
      max_iter self <> 0 ->
      (Z.to_nat (max_iter self + 1 - iteration) <= fuel)%nat ->
      snd (tiles_loop self slide fuel iteration v g) <> OutOfFuel.
Proof.
  intros self slide Hvalid fuel. induction fuel as [| fuel IH];
    intros iteration v g Hit Hm Hfuel; simpl.
  - lia.
  - loop_cases self slide g; simpl; try discriminate.
    + unfold budget_exhausted, truthy.
      destruct (Z.eqb_spec (max_iter self) 0) as [Hz | Hnz]; [contradiction |].
      destruct (Z.gtb_spec (iteration + 1) (max_iter self)) as [Hgt | Hle];
        simpl; [discriminate |].
      match goal with
      | |- context [?a >? n_tiles self] =>
        destruct (a >? n_tiles self); simpl; [discriminate |]
      end.
      match goal with
      | |- context [tiles_loop self slide fuel ?i ?w ?s] =>
        pose proof (IH i w s) as Hrec;
          destruct (tiles_loop self slide fuel i w s) as [rest e']
      end.
      simpl in *. apply Hrec; lia.
    + exfalso. exact (Hvalid _ Htile).
Qed.

(** X2. With a non-zero attempt budget and a slide that never refuses a box
    as an invalid region, the generator ends, by stopping or by an error,
    within [max_iter + 1] passes through its loop. *)
Theorem generator_ends_within_budget :
  forall (self : RandomTiler) (slide : Slide) (fuel : nat) (g : RandomState),
    0 < max_iter self ->
    (forall c, extract_tile slide c (level self) <> Raise ValueError) ->
    (Z.to_nat (max_iter self + 1) <= fuel)%nat ->
    snd (_random_tiles_generator self slide fuel g) <> OutOfFuel.
Proof.
  intros self slide fuel g Hm Hvalid Hfuel. unfold _random_tiles_generator.
  apply tiles_loop_ends_within_budget; try assumption; lia.
Qed.

Lemma generator_ends_within_budget_witness :
  snd (_random_tiles_generator (tiler 1 3 true) (uniform_slide false) 4
                               (np_random_seed counting_prng 7))
  <> OutOfFuel.
Proof.
  apply (generator_ends_within_budget (tiler 1 3 true) (uniform_slide false) 4
           (np_random_seed counting_prng 7)).
  - reflexivity.
  - intros c H. discriminate H.
  - simpl. lia.
Defined.

(** X3. Refused attempts are not counted, so neither budget can end a run in
    which every attempt is refused: on a slide whose mask has a true pixel
    and whose every extraction raises [ValueError], the generator yields
    nothing and is still running after any number of passes, whatever
    [max_iter] and [n_tiles] are. *)
Theorem generator_spins_on_invalid_regions :
  forall (self : RandomTiler) (slide : Slide),
    on_pixels 0 (box_mask_lvl self slide) <> [] ->
    (forall c, extract_tile slide c (level self) = Raise ValueError) ->
    forall (fuel : nat) (g : RandomState),
      _random_tiles_generator self slide fuel g = ([], OutOfFuel).
Proof.
  intros self slide Hmask Hrefuse fuel g. unfold _random_tiles_generator.
  generalize 0 at 1 as it. generalize 0 as v. revert g.
  induction fuel as [| fuel IH]; intros g v it.
  - reflexivity.
  - destruct (random_tile_coordinates_total self slide g Hmask) as [c [g' Hc]].
    rewrite (invalid_region_discard_step self slide fuel it v g g' c Hc (Hrefuse c)).
    apply IH.
Qed.

Lemma generator_spins_on_invalid_regions_witness :
  _random_tiles_generator (mkRandomTiler (3, 3) 50 0 5 7 false "" ".png")
                          cramped_slide 40 (np_random_seed counting_prng 7)
  = ([], OutOfFuel).
Proof.
  apply (generator_spins_on_invalid_regions
           (mkRandomTiler (3, 3) 50 0 5 7 false "" ".png") cramped_slide).
  - discriminate.
  - intro c. reflexivity.
Defined.

(** ** What the generator yields *)

Lemma tiles_loop_exact_count :
  forall (self : RandomTiler) (slide : Slide),
    check_tissue self = false ->
    n_tiles self <= max_iter self ->
    on_pixels 0 (box_mask_lvl self slide) <> [] ->
    (forall c, exists tile, extract_tile slide c (level self) = Ok tile) ->
    forall (fuel : nat) (it : Z) (g : RandomState),
      0 <= it <= n_tiles self ->
      (Z.to_nat (n_tiles self + 1 - it) <= fuel)%nat ->
      exists ys,
        tiles_loop self slide fuel it it g
        = (ys, StopIteration (n_tiles self + 1) (n_tiles self + 1)) /\
        List.length ys = Z.to_nat (n_tiles self + 1 - it).
Proof.
  intros self slide Hct Hnm Hmask Hok fuel.
  induction fuel as [| fuel IH]; intros it g Hit Hfuel; [lia |].
  cbn [tiles_loop].
  destruct (random_tile_coordinates_total self slide g Hmask) as [c [g' Hc]].
  rewrite Hc. destruct (Hok c) as [tile Ht]. rewrite Ht, Hct. cbn [negb orb].
  unfold budget_exhausted, truthy.
  destruct (Z.gtb_spec (it + 1) (max_iter self)) as [Hgt | Hle].
  - assert (Hn : it = n_tiles self) by lia.
    destruct (Z.eqb_spec (max_iter self) 0) as [Hz | Hnz]; cbn [negb andb].
    + destruct (Z.gtb_spec (it + 1) (n_tiles self)) as [Hgt' | Hle']; [| lia].
      exists [(tile, c)]. rewrite Hn.
      split; [reflexivity |].
      replace (n_tiles self + 1 - n_tiles self) with 1 by lia. reflexivity.
    + exists [(tile, c)]. rewrite Hn.
      split; [reflexivity |].
      replace (n_tiles self + 1 - n_tiles self) with 1 by lia. reflexivity.
  - rewrite andb_false_r.
    destruct (Z.gtb_spec (it + 1) (n_tiles self)) as [Hgt' | Hle'].
    + assert (Hn : it = n_tiles self) by lia.
      exists [(tile, c)]. rewrite Hn.
      split; [reflexivity |].
      replace (n_tiles self + 1 - n_tiles self) with 1 by lia. reflexivity.
    + destruct (IH (it + 1) g') as [rest [Hrest Hlen]]; [lia | lia |].
      rewrite Hrest. exists ((tile, c) :: rest).
      split; [reflexivity |].
      simpl. rewrite Hlen. lia.
Qed.

(** X4. Without the tissue check, with [0 <= n_tiles <= max_iter] (as the
    constructor requires), on a slide whose mask has a true pixel and whose
    extractions all succeed, the generator stops after exactly
    [n_tiles + 1] passes having yielded exactly [n_tiles + 1] tiles. *)
Theorem generator_yields_one_more_than_asked :
  forall (self : RandomTiler) (slide : Slide) (fuel : nat) (g : RandomState),
    check_tissue self = false ->
    0 <= n_tiles self ->
    n_tiles self <= max_iter self ->
    on_pixels 0 (box_mask_lvl self slide) <> [] ->
    (forall c, exists tile, extract_tile slide c (level self) = Ok tile) ->
    (Z.to_nat (n_tiles self + 1) <= fuel)%nat ->
    exists ys,
      _random_tiles_generator self slide fuel g
      = (ys, StopIteration (n_tiles self + 1) (n_tiles self + 1)) /\
      Z.of_nat (List.length ys) = n_tiles self + 1.
Proof.
  intros self slide fuel g Hct Hn Hnm Hmask Hok Hfuel.
  unfold _random_tiles_generator.
  destruct (tiles_loop_exact_count self slide Hct Hnm Hmask Hok fuel 0 g)
    as [ys [Hrun Hlen]]; [lia | lia |].
  exists ys. split; [exact Hrun | lia].
Qed.

Lemma generator_yields_one_more_than_asked_witness :
  exists ys,
    _random_tiles_generator (tiler 5 50 false) (uniform_slide true) 6
                            (np_random_seed counting_prng 7)
    = (ys, StopIteration 6 6) /\
    Z.of_nat (List.length ys) = 6.
Proof.
  apply (generator_yields_one_more_than_asked (tiler 5 50 false)
           (uniform_slide true) 6 (np_random_seed counting_prng 7)).
  - reflexivity.
  - simpl. lia.
  - simpl. lia.
  - discriminate.
  - intro c. eexists. reflexivity.
  - simpl. lia.
Defined.

(** X5. Whatever the way the run ends, every pair the generator has yielded
    is a tile together with the box it was extracted from at the tiler's
    level, and, when the tissue check is on, a tile that passes it. *)
Theorem generator_yields_accepted_tiles :
  forall (self : RandomTiler) (slide : Slide) (fuel : nat) (g : RandomState)
         (tile : Tile) (box : CoordinatePair),
    In (tile, box) (fst (_random_tiles_generator self slide fuel g)) ->
    extract_tile slide box (level self) = Ok tile /\
    (check_tissue self = true -> has_enough_tissue tile = true).
Proof.
  intros self slide fuel g tile box. unfold _random_tiles_generator.
  generalize 0 at 1 as it. generalize 0 as v. revert g.
  induction fuel as [| fuel IH]; intros g v it Hin; simpl in Hin.
  - contradiction.
  - loop_cases self slide g; simpl in Hin; try contradiction.
    + destruct (negb (check_tissue self) || has_enough_tissue tile0) eqn:Hacc;
        destruct (budget_exhausted self (it + 1));
        try match type of Hin with
            | context [?a >? n_tiles self] => destruct (a >? n_tiles self)
            end;
        try match type of Hin with
            | context [tiles_loop self slide fuel ?i ?w ?s] =>
              pose proof (IH s w i) as Hrec;
                destruct (tiles_loop self slide fuel i w s) as [rest e']
            end;
        simpl in *; try contradiction;
        repeat match type of Hin with
               | _ \/ _ => destruct Hin as [Hin | Hin]
               end;
        try contradiction; try (apply Hrec; exact Hin);
        inversion Hin; subst; split; try exact Htile;
        intro Hct; rewrite Hct in Hacc; exact Hacc.
    + apply (IH _ _ _ Hin).
Qed.

Lemma generator_yields_accepted_tiles_witness :
  extract_tile (uniform_slide true) (mkCoords 1 1 2 2) (level (tiler 1 1 true))
  = Ok {| image := 0; has_enough_tissue := true |} /\
  (check_tissue (tiler 1 1 true) = true ->
   has_enough_tissue {| image := 0; has_enough_tissue := true |} = true).
Proof.
  apply (generator_yields_accepted_tiles (tiler 1 1 true) (uniform_slide true) 10
           (np_random_seed counting_prng 7)).
  right. left. reflexivity.
Defined.

(** ** Errors that leave the generator *)

(** The coordinate draw can only fail with [ValueError], and only on a mask
    without a true pixel. *)
Lemma random_tile_coordinates_Raise :
  forall (self : RandomTiler) (slide : Slide) (g : RandomState) (e : exn),
    _random_tile_coordinates self slide g = Raise e ->
    e = ValueError /\ on_pixels 0 (box_mask_lvl self slide) = [].
Proof.
  intros self slide g e H.
  destruct (on_pixels 0 (box_mask_lvl self slide)) as [| p rest] eqn:Hm.
  - rewrite (random_tile_coordinates_empty_mask self slide g Hm) in H.
    inversion H. split; reflexivity.
  - destruct (random_tile_coordinates_total self slide g) as [c [g' Hc]].
    + rewrite Hm. discriminate.
    + rewrite Hc in H. discriminate.
Qed.

Lemma tiles_loop_Raises :
  forall (self : RandomTiler) (slide : Slide) (fuel : nat) (iteration v : Z)
         (g : RandomState) (ys : list (Tile * CoordinatePair)) (e : exn),
    tiles_loop self slide fuel iteration v g = (ys, Raises e) ->
    (e = ValueError /\ on_pixels 0 (box_mask_lvl self slide) = []) \/
    (e <> ValueError /\
     exists c, extract_tile slide c (level self) = Raise e).
Proof.
  intros self slide fuel. induction fuel as [| fuel IH];
    intros iteration v g ys e H; simpl in H.
  - discriminate.
  - loop_cases self slide g.
    + destruct (negb (check_tissue self) || has_enough_tissue tile);
        destruct (budget_exhausted self (iteration + 1));
        try discriminate;
        match type of H with
        | context [?a >? n_tiles self] =>
          destruct (a >? n_tiles self); [discriminate |]
        end;
        match type of H with
        | context [tiles_loop self slide fuel ?i ?w ?s] =>
          destruct (tiles_loop self slide fuel i w s) as [rest e'] eqn:Hrec
        end;
        inversion H; subst; apply IH in Hrec; exact Hrec.
    + apply IH in H. exact H.
    + inversion H; subst. right. split; [discriminate |].
      exists coords. exact Htile.
    + inversion H; subst. right. split; [discriminate |].
      exists coords. exact Htile.
    + inversion H; subst. left.
      apply (random_tile_coordinates_Raise self slide g _ Hcoords).
Qed.

(** X6. An error that leaves the generator is either the [ValueError] of the
    coordinate draw, and then the mask has no true pixel and nothing was
    yielded before it, or an error other than [ValueError] raised by some
    [extract_tile] call.  A [ValueError] of [extract_tile] never leaves the
    generator. *)
Theorem generator_error_provenance :
  forall (self : RandomTiler) (slide : Slide) (fuel : nat) (g : RandomState)
         (ys : list (Tile * CoordinatePair)) (e : exn),
    _random_tiles_generator self slide fuel g = (ys, Raises e) ->
    (e = ValueError /\ on_pixels 0 (box_mask_lvl self slide) = [] /\ ys = []) \/
    (e <> ValueError /\
     exists c, extract_tile slide c (level self) = Raise e).
Proof.
  intros self slide fuel g ys e H. unfold _random_tiles_generator in H.
  destruct (tiles_loop_Raises _ _ _ _ _ _ _ _ H) as [[He Hm] | Hother];
    [left | right; exact Hother].
  split; [exact He |]. split; [exact Hm |].
  destruct fuel as [| fuel]; simpl in H; [discriminate |].
  rewrite (random_tile_coordinates_empty_mask self slide g Hm) in H.
  inversion H. reflexivity.
Qed.

Lemma generator_error_provenance_witness :
  (ValueError = ValueError /\
   on_pixels 0 (box_mask_lvl (tiler 1 1 true) blank_slide) = [] /\
   @nil (Tile * CoordinatePair) = []) \/
  (ValueError <> ValueError /\
   exists c, extract_tile blank_slide c (level (tiler 1 1 true)) = Raise ValueError).
Proof.
  apply (generator_error_provenance (tiler 1 1 true) blank_slide 10
           (np_random_seed counting_prng 7)).
  reflexivity.
Defined.

(** ** What the driver writes and prints *)

Lemma save_tiles_tiles :
  forall (self : RandomTiler) (ys : list (Tile * CoordinatePair)) (n : nat),
    map snd (fst (save_tiles self n ys)) = map fst ys.
Proof.
  intros self ys. induction ys as [| [t c] ys IH]; intro n; simpl.
  - reflexivity.
  - specialize (IH (S n)).
    destruct (save_tiles self (S n) ys) as [files lines]. simpl in *.
    rewrite IH. reflexivity.
Qed.

Lemma save_tiles_lines :
  forall (self : RandomTiler) (ys : list (Tile * CoordinatePair)) (n : nat),
    List.length (snd (save_tiles self n ys)) = List.length ys.
Proof.
  intros self ys. induction ys as [| [t c] ys IH]; intro n; simpl.
  - reflexivity.
  - specialize (IH (S n)).
    destruct (save_tiles self (S n) ys) as [files lines]. simpl in *.
    rewrite IH. reflexivity.
Qed.

Lemma save_tiles_files :
  forall (self : RandomTiler) (ys : list (Tile * CoordinatePair)) (n : nat),
    List.length (fst (save_tiles self n ys)) = List.length ys.
Proof.
  intros self ys. induction ys as [| [t c] ys IH]; intro n; simpl.
  - reflexivity.
  - specialize (IH (S n)).
    destruct (save_tiles self (S n) ys) as [files lines]. simpl in *.
    rewrite IH. reflexivity.
Qed.

(** [extract] in terms of what the generator gave. *)
Lemma extract_unfold :
  forall (prng : Z -> nat -> nat) (fuel : nat) (self : RandomTiler)
         (slide : Slide) (ambient : RandomState)
         (ys : list (Tile * CoordinatePair)) (e : gen_end),
    _random_tiles_generator self slide fuel (np_random_seed prng (seed self))
    = (ys, e) ->
    extract prng fuel self slide ambient =
    match e with
    | StopIteration _ _ =>
      {| saved := fst (save_tiles self 0 ys);
         stdout := snd (save_tiles self 0 ys)
                   ++ [(str (Z.of_nat (Nat.pred (List.length ys)))
                          ++ " Random Tiles have been saved.")%string];
         status := Completed |}
    | Raises x =>
      {| saved := fst (save_tiles self 0 ys);
         stdout := snd (save_tiles self 0 ys);
         status := Raised x |}
    | OutOfFuel =>
      {| saved := fst (save_tiles self 0 ys);
         stdout := snd (save_tiles self 0 ys);
         status := Diverged |}
    end.
Proof.
  intros prng fuel self slide ambient ys e H. unfold extract. rewrite H.
  destruct (save_tiles self 0 ys) as [files lines]. destruct e; reflexivity.
Qed.

(** X7. [extract] saves the tiles the generator yielded, all of them and in
    the order of the yields, and prints one line for each; this also holds
    when an error cuts the run short, and then the tiles yielded before the
    error are on disk, the error is the way the call ends and no summary line
    is printed. *)
Theorem extract_keeps_yielded_tiles :
  forall (prng : Z -> nat -> nat) (fuel : nat) (self : RandomTiler)
         (slide : Slide) (ambient : RandomState)
         (ys : list (Tile * CoordinatePair)) (e : gen_end),
    _random_tiles_generator self slide fuel (np_random_seed prng (seed self))
    = (ys, e) ->
    let run := extract prng fuel self slide ambient in
    map snd (saved run) = map fst ys /\
    status run = match e with
                 | StopIteration _ _ => Completed
                 | Raises x => Raised x
                 | OutOfFuel => Diverged
                 end /\
    List.length (stdout run)
    = (List.length ys + match e with StopIteration _ _ => 1 | _ => 0 end)%nat.
Proof.
  intros prng fuel self slide ambient ys e H run. subst run.
  rewrite (extract_unfold prng fuel self slide ambient ys e H).
  destruct e; cbn [saved stdout status];
    (split; [apply save_tiles_tiles |]);
    (split; [reflexivity |]);
    rewrite ?length_app, save_tiles_lines; simpl; lia.
Qed.

Lemma extract_keeps_yielded_tiles_witness :
  map snd (saved (extract counting_prng 10 (tiler 1 1 false) (uniform_slide true)
                          (np_random_seed counting_prng 0)))
  = [ {| image := 0; has_enough_tissue := true |};
      {| image := 0; has_enough_tissue := true |} ] /\
  status (extract counting_prng 10 (tiler 1 1 false) (uniform_slide true)
                  (np_random_seed counting_prng 0)) = Completed /\
  List.length (stdout (extract counting_prng 10 (tiler 1 1 false)
                               (uniform_slide true)
                               (np_random_seed counting_prng 0))) = 3%nat.
Proof.
  apply (extract_keeps_yielded_tiles counting_prng 10 (tiler 1 1 false)
           (uniform_slide true) (np_random_seed counting_prng 0)
           [({| image := 0; has_enough_tissue := true |}, mkCoords 1 0 2 1);
            ({| image := 0; has_enough_tissue := true |}, mkCoords 1 1 2 2)]
           (StopIteration 2 2)).
  reflexivity.
Defined.

(** X8. The summary line carries the last sequence number handed out, not
    the number of tiles: when a completed run has saved [k + 1] tiles, its
    last printed line announces [k]. *)
Theorem extract_summary_is_last_index :
  forall (prng : Z -> nat -> nat) (fuel : nat) (self : RandomTiler)
         (slide : Slide) (ambient : RandomState) (k : nat),
    status (extract prng fuel self slide ambient) = Completed ->
    List.length (saved (extract prng fuel self slide ambient)) = S k ->
    last (stdout (extract prng fuel self slide ambient)) EmptyString
    = (str (Z.of_nat k) ++ " Random Tiles have been saved.")%string.
Proof.
  intros prng fuel self slide ambient k Hst Hlen.
  destruct (_random_tiles_generator self slide fuel
              (np_random_seed prng (seed self))) as [ys e] eqn:Hgen.
  rewrite (extract_unfold prng fuel self slide ambient ys e Hgen) in *.
  destruct e; simpl in Hst; try discriminate. simpl in *.
  rewrite last_last.
  rewrite save_tiles_files in Hlen. rewrite Hlen. reflexivity.
Qed.

Lemma extract_summary_is_last_index_witness :
  last (stdout (extract counting_prng 10 (tiler 1 1 false) (uniform_slide true)
                        (np_random_seed counting_prng 0))) EmptyString
  = "1 Random Tiles have been saved."%string.
Proof.
  apply (extract_summary_is_last_index counting_prng 10 (tiler 1 1 false)
           (uniform_slide true) (np_random_seed counting_prng 0) 1);
    reflexivity.
Defined.



(** ** File names *)

Lemma string_of_uint_digits :
  forall d, all_digits (NilEmpty.string_of_uint d) = true.
Proof.
  induction d; simpl; try rewrite IHd; reflexivity.
Qed.

Lemma NilZero_string_of_uint_digits :
  forall d, all_digits (NilZero.string_of_uint d) = true /\
            NilZero.string_of_uint d <> EmptyString.
Proof.
  intro d. destruct d; simpl; try (rewrite string_of_uint_digits);
    split; try reflexivity; discriminate.
Qed.

Lemma append_cancel_l :
  forall s a b : string, (s ++ a = s ++ b)%string -> a = b.
Proof.
  induction s as [| c s IH]; intros a b H; simpl in H.
  - exact H.
  - inversion H. apply IH. assumption.
Qed.

Lemma string_length_append :
  forall a b : string,
    String.length (a ++ b) = (String.length a + String.length b)%nat.
Proof.
  induction a as [| c a IH]; intro b; simpl; [reflexivity | rewrite IH; reflexivity].
Qed.

Lemma append_cancel_same_length :
  forall a b r1 r2 : string,
    String.length a = String.length b ->
    (a ++ r1 = b ++ r2)%string -> a = b /\ r1 = r2.
Proof.
  induction a as [| c a IH]; intros [| c' b] r1 r2 Hlen H; simpl in *;
    try discriminate.
  - split; [reflexivity | exact H].
  - inversion H; subst. destruct (IH b r1 r2) as [Hab Hr]; [lia | assumption |].
    subst. split; reflexivity.
Qed.

Lemma append_cancel_r :
  forall a b r : string, (a ++ r = b ++ r)%string -> a = b.
Proof.
  intros a b r H.
  apply (append_cancel_same_length a b r r); [| exact H].
  apply (f_equal String.length) in H. rewrite !string_length_append in H. lia.
Qed.

(** Two runs of digits, each followed by a character that is not a digit. *)
Lemma digits_delimited :
  forall (a b r1 r2 : string) (c1 c2 : ascii),
    all_digits a = true -> all_digits b = true ->
    is_digit c1 = false -> is_digit c2 = false ->
    (a ++ String c1 r1 = b ++ String c2 r2)%string ->
    a = b /\ String c1 r1 = String c2 r2.
Proof.
  induction a as [| x a IH]; intros [| y b] r1 r2 c1 c2 Ha Hb Hc1 Hc2 H;
    simpl in *.
  - split; [reflexivity | exact H].
  - inversion H; subst. apply andb_prop in Hb. destruct Hb as [Hy _].
    congruence.
  - inversion H; subst. apply andb_prop in Ha. destruct Ha as [Hx _].
    congruence.
  - inversion H; subst. apply andb_prop in Ha. apply andb_prop in Hb.
    destruct (IH b r1 r2 c1 c2) as [Hab Hr]; try tauto.
    subst. split; [reflexivity | exact Hr].
Qed.

Lemma str_shape :
  forall z : Z,
    exists d : string,
      all_digits d = true /\ d <> EmptyString /\
      (str z = d \/ str z = String "-" d).
Proof.
  intro z. unfold str. destruct (Z.to_int z) as [u | u]; simpl;
    exists (NilZero.string_of_uint u);
    destruct (NilZero_string_of_uint_digits u) as [Hd Hne]; auto.
Qed.

Lemma str_injective : forall a b : Z, str a = str b -> a = b.
Proof.
  intros a b H. unfold str in H.
  assert (Hint : forall z, NilZero.int_of_string (NilZero.string_of_int (Z.to_int z))
                           = Some (Z.to_int z)).
  { intro z. apply NilZero.isi; destruct z; simpl; try discriminate;
      intro Hz; inversion Hz; eapply DecimalPos.Unsigned.to_uint_nonnil; eassumption. }
  pose proof (Hint a) as Ha. rewrite H, Hint in Ha. inversion Ha as [Hab].
  rewrite <- (DecimalZ.of_to a), <- (DecimalZ.of_to b), Hab. reflexivity.
Qed.

(** A rendered integer followed by a character that is not a digit. *)
Lemma str_delimited :
  forall (a b : Z) (r1 r2 : string) (c : ascii),
    is_digit c = false ->
    (str a ++ String c r1 = str b ++ String c r2)%string ->
    a = b /\ r1 = r2.
Proof.
  intros a b r1 r2 c Hc H.
  destruct (str_shape a) as [da [Hda [Hna Ea]]].
  destruct (str_shape b) as [db [Hdb [Hnb Eb]]].
  assert (Hstr : str a = str b /\ r1 = r2).
  { destruct Ea as [Ea | Ea]; destruct Eb as [Eb | Eb];
      rewrite Ea, Eb in H |- *; clear Ea Eb.
    - destruct (digits_delimited da db r1 r2 c c Hda Hdb Hc Hc H) as [E1 E2].
      inversion E2. split; congruence.
    - destruct da as [| x da]; [contradiction |]. simpl in H, Hda.
      inversion H; subst. discriminate.
    - destruct db as [| x db]; [contradiction |]. simpl in H, Hdb.
      inversion H; subst. discriminate.
    - simpl in H. inversion H as [H'].
      destruct (digits_delimited da db r1 r2 c c Hda Hdb Hc Hc H') as [E1 E2].
      inversion E2. split; congruence. }
  destruct Hstr as [Hs Hr]. split; [apply str_injective; exact Hs | exact Hr].
Qed.

(** A file name gives back the sequence number and the box it was made
    from. *)
Lemma tile_filename_inv :
  forall (self : RandomTiler) (c c' : CoordinatePair) (k k' : nat),
    _tile_filename self c k = _tile_filename self c' k' ->
    k = k' /\ c = c'.
Proof.
  intros self [xu yu xb yb] [xu' yu' xb' yb'] k k' H.
  unfold _tile_filename in H.
  apply append_cancel_l in H. cbn [append] in H.
  injection H as H.
  apply str_delimited in H; [| reflexivity]. destruct H as [Hk H].
  cbn [append] in H. injection H as H.
  apply append_cancel_l in H. injection H as H.
  apply str_delimited in H; [| reflexivity]. destruct H as [Hxu H].
  apply str_delimited in H; [| reflexivity]. destruct H as [Hyu H].
  apply str_delimited in H; [| reflexivity]. destruct H as [Hxb H].
  apply append_cancel_r in H. apply str_injective in H.
  subst. split; [lia | reflexivity].
Qed.

(** X10. For one tiler, two file names are different as soon as the
    sequence numbers or the boxes are: a file name determines both, also
    with negative coordinates and whatever the prefix and the suffix. *)
Theorem tile_filename_injective :
  forall (self : RandomTiler) (c c' : CoordinatePair) (k k' : nat),
    k <> k' \/ c <> c' ->
    _tile_filename self c k <> _tile_filename self c' k'.
Proof.
  intros self c c' k k' Hne Heq.
  apply tile_filename_inv in Heq. destruct Heq as [Hk Hc].
  destruct Hne as [Hne | Hne]; contradiction.
Qed.

Lemma tile_filename_injective_witness :
  _tile_filename (tiler 1 1 false) (mkCoords 1 (-12) 3 4) 0
  <> _tile_filename (tiler 1 1 false) (mkCoords 1 (-1) 23 4) 0.
Proof.
  apply (tile_filename_injective (tiler 1 1 false)).
  right. discriminate.
Defined.

Lemma save_tiles_names :
  forall (self : RandomTiler) (ys : list (Tile * CoordinatePair)) (n : nat)
         (f : string),
    In f (map fst (fst (save_tiles self n ys))) ->
    exists (k : nat) (c : CoordinatePair),
      (n <= k)%nat /\ f = _tile_filename self c k.
Proof.
  intros self ys. induction ys as [| [t c] ys IH]; intros n f Hin; simpl in Hin.
  - contradiction.
  - specialize (IH (S n) f).
    destruct (save_tiles self (S n) ys) as [files lines]. simpl in *.
    destruct Hin as [Hf | Hin].
    + exists n, c. split; [lia | symmetry; exact Hf].
    + destruct (IH Hin) as [k [c' [Hk Hf]]]. exists k, c'. split; [lia | exact Hf].
Qed.

Lemma save_tiles_NoDup :
  forall (self : RandomTiler) (ys : list (Tile * CoordinatePair)) (n : nat),
    NoDup (map fst (fst (save_tiles self n ys))).
Proof.
  intros self ys. induction ys as [| [t c] ys IH]; intro n; simpl.
  - constructor.
  - pose proof (IH (S n)) as Hnd.
    pose proof (save_tiles_names self ys (S n)) as Hnames.
    destruct (save_tiles self (S n) ys) as [files lines]. simpl in *.
    constructor; [| exact Hnd].
    intro Hin. destruct (Hnames _ Hin) as [k [c' [Hk Hf]]].
    apply tile_filename_inv in Hf. lia.
Qed.

(** X11. In one call of [extract] no two tiles are saved under the same
    file name, so no tile of the run overwrites another. *)
Theorem extract_file_names_distinct :
  forall (prng : Z -> nat -> nat) (fuel : nat) (self : RandomTiler)
         (slide : Slide) (ambient : RandomState),
    NoDup (map fst (saved (extract prng fuel self slide ambient))).
Proof.
  intros prng fuel self slide ambient.
  destruct (_random_tiles_generator self slide fuel
              (np_random_seed prng (seed self))) as [ys e] eqn:Hgen.
  rewrite (extract_saved prng fuel self slide ambient ys e Hgen).
  apply save_tiles_NoDup.
Qed.

(** ** The data registry *)

Lemma dict_get_set :
  forall (d : Registry.dict) (k v k' : string),
    Registry.dict_get (Registry.dict_set d k v) k'
    = if String.eqb k k' then Some v else Registry.dict_get d k'.
Proof.
  induction d as [| [k0 v0] d IH]; intros k v k'; simpl.
  - reflexivity.
  - destruct (String.eqb_spec k0 k) as [E0 | N0]; simpl.
    + subst k0. destruct (String.eqb_spec k k'); reflexivity.
    + rewrite IH. destruct (String.eqb_spec k0 k') as [E1 | N1];
        destruct (String.eqb_spec k k') as [E2 | N2]; try reflexivity.
      congruence.
Qed.

Lemma legacy_comprehension_succeeds :
  forall (reg : Registry.dict) (files : list string) (acc : Registry.dict),
    (exists d, Registry.legacy_comprehension reg files acc = Some d) <->
    (forall f, In f files -> Registry.dict_get reg ("data/" ++ f)%string <> None).
Proof.
  intros reg files. induction files as [| f files IH]; intro acc; cbn [Registry.legacy_comprehension In].
  - split; [intros _ f [] | intros _; exists acc; reflexivity].
  - destruct (Registry.dict_get reg ("data/" ++ f)%string) as [h |] eqn:Hf.
    + split.
      * intros H f' [E | Hin]; [subst f'; rewrite Hf; discriminate |].
        apply (proj1 (IH _) H). exact Hin.
      * intros H. apply (proj2 (IH _)). intros f' Hin. apply H. right. exact Hin.
    + split.
      * intros [d Hd]. discriminate.
      * intro H. exfalso. apply (H f); [left; reflexivity | exact Hf].
Qed.

(** An entry that agrees with the registry survives the rest of the
    comprehension. *)
Lemma legacy_comprehension_keeps :
  forall (reg : Registry.dict) (files : list string) (acc d : Registry.dict)
         (k v : string),
    Registry.legacy_comprehension reg files acc = Some d ->
    Registry.dict_get acc k = Some v ->
    Registry.dict_get reg k = Some v ->
    Registry.dict_get d k = Some v.
Proof.
  intros reg files. induction files as [| f files IH];
    intros acc d k v H Hacc Hreg;
    cbn [Registry.legacy_comprehension] in H.
  - inversion H; subst. exact Hacc.
  - destruct (Registry.dict_get reg ("data/" ++ f)%string) as [h |] eqn:Hf;
      [| discriminate].
    apply (IH _ _ _ _ H); [| exact Hreg].
    rewrite dict_get_set.
    destruct (String.eqb_spec ("data/" ++ f)%string k) as [E | N];
      [subst k; congruence | exact Hacc].
Qed.

Lemma legacy_comprehension_entries :
  forall (reg : Registry.dict) (files : list string) (acc d : Registry.dict),
    Registry.legacy_comprehension reg files acc = Some d ->
    forall k v : string,
      (Registry.dict_get d k = Some v ->
       Registry.dict_get acc k = Some v \/
       ((exists f, In f files /\ k = ("data/" ++ f)%string) /\
        Registry.dict_get reg k = Some v)) /\
      ((exists f, In f files /\ k = ("data/" ++ f)%string) ->
       Registry.dict_get reg k = Some v ->
       Registry.dict_get d k = Some v).
Proof.
  intros reg files. induction files as [| f files IH]; intros acc d H k v;
    cbn [Registry.legacy_comprehension] in H.
  - inversion H; subst. split; [intro Hd; left; exact Hd |].
    intros [f [[] _]].
  - destruct (Registry.dict_get reg ("data/" ++ f)%string) as [h |] eqn:Hf;
      [| discriminate].
    destruct (IH _ _ H k v) as [Hsound Hcomplete]. split.
    + intro Hd. destruct (Hsound Hd) as [Hacc | [[f' [Hin Hk]] Hreg]].
      * rewrite dict_get_set in Hacc.
        destruct (String.eqb_spec ("data/" ++ f)%string k) as [E | N];
          [| left; exact Hacc].
        right. split; [exists f; split; [left; reflexivity | symmetry; exact E] |].
        subst k. congruence.
      * right. split; [exists f'; split; [right; exact Hin | exact Hk] | exact Hreg].
    + intros [f' [[E | Hin] Hk]] Hreg.
      * subst f' k. apply (legacy_comprehension_keeps _ _ _ _ _ _ H); [| exact Hreg].
        rewrite dict_get_set, String.eqb_refl. congruence.
      * apply Hcomplete; [exists f'; split; [exact Hin | exact Hk] | exact Hreg].
Qed.

(** X12. Building the legacy registry from a registry and a list of file
    names succeeds exactly when every ["data/" + filename] is a key of the
    registry; a single missing key makes it fail with the lookup error. *)
Theorem legacy_registry_needs_every_key :
  forall (reg : Registry.dict) (files : list string),
    (exists d, Registry.legacy_comprehension reg files [] = Some d) <->
    (forall f, In f files -> Registry.dict_get reg ("data/" ++ f)%string <> None).
Proof.
  intros reg files. apply legacy_comprehension_succeeds.
Qed.

Lemma legacy_registry_needs_every_key_witness :
  exists d, Registry.legacy_registry = Some d.
Proof.
  apply (proj2 (legacy_registry_needs_every_key Registry.registry
                  Registry.legacy_datasets)).
  intros f [E | []]. subst f. discriminate.
Defined.

(** X13. When it is built, the legacy registry is the registry restricted to
    the keys ["data/" + filename]: it maps a key to a hash if and only if the
    key is of that form for a listed file name and the registry maps it to
    that hash. *)
Theorem legacy_registry_is_restriction :
  forall (reg : Registry.dict) (files : list string) (d : Registry.dict),
    Registry.legacy_comprehension reg files [] = Some d ->
    forall k v : string,
      Registry.dict_get d k = Some v <->
      ((exists f, In f files /\ k = ("data/" ++ f)%string) /\
       Registry.dict_get reg k = Some v).
Proof.
  intros reg files d H k v.
  destruct (legacy_comprehension_entries reg files [] d H k v)
    as [Hsound Hcomplete].
  split.
  - intro Hd. destruct (Hsound Hd) as [Hnil | Hin]; [discriminate | exact Hin].
  - intros [Hk Hreg]. apply Hcomplete; assumption.
Qed.

Lemma legacy_registry_is_restriction_witness :
  Registry.dict_get
    [("data/cmu_small_region.svs"%string,
      "ed92d5a9f2e86df67640d6f92ce3e231419ce127131697fbbce42ad5e002c8a7"%string)]
    "data/cmu_small_region.svs"%string
  = Some "ed92d5a9f2e86df67640d6f92ce3e231419ce127131697fbbce42ad5e002c8a7"%string
  <->
  ((exists f, In f Registry.legacy_datasets /\
              "data/cmu_small_region.svs"%string = ("data/" ++ f)%string) /\
   Registry.dict_get Registry.registry "data/cmu_small_region.svs"%string
   = Some "ed92d5a9f2e86df67640d6f92ce3e231419ce127131697fbbce42ad5e002c8a7"%string).
Proof.
  apply (legacy_registry_is_restriction Registry.registry
           Registry.legacy_datasets).
  reflexivity.
Defined.

(** ** More on the coordinate draw and on the attempt budget *)

(** X14. The coordinate draw fails exactly on a mask without a true pixel,
    and it then fails with [ValueError]; on any other mask it returns a
    box. *)
Theorem random_tile_coordinates_raises_iff :
  forall (self : RandomTiler) (slide : Slide) (g : RandomState),
    (on_pixels 0 (box_mask_lvl self slide) = [] ->
     _random_tile_coordinates self slide g = Raise ValueError) /\
    (on_pixels 0 (box_mask_lvl self slide) <> [] ->
     exists c g', _random_tile_coordinates self slide g = Ok (c, g')) /\
    (forall e, _random_tile_coordinates self slide g = Raise e ->
               e = ValueError /\ on_pixels 0 (box_mask_lvl self slide) = []).
Proof.
  intros self slide g. split; [| split].
  - apply random_tile_coordinates_empty_mask.
  - apply random_tile_coordinates_total.
  - apply random_tile_coordinates_Raise.
Qed.

Lemma random_tile_coordinates_raises_iff_witness :
  _random_tile_coordinates (tiler 1 1 true) blank_slide
                           (np_random_seed counting_prng 7)
  = Raise ValueError /\
  (exists c g', _random_tile_coordinates (tiler 1 1 true) diagonal_slide
                                         (np_random_seed counting_prng 7)
                = Ok (c, g')) /\
  (ValueError = ValueError /\
   on_pixels 0 (box_mask_lvl (tiler 1 1 true) blank_slide) = []).
Proof.
  split; [| split].
  - apply (proj1 (random_tile_coordinates_raises_iff (tiler 1 1 true) blank_slide
                    (np_random_seed counting_prng 7))).
    reflexivity.
  - apply (proj1 (proj2 (random_tile_coordinates_raises_iff (tiler 1 1 true)
                           diagonal_slide (np_random_seed counting_prng 7)))).
    discriminate.
  - apply (proj2 (proj2 (random_tile_coordinates_raises_iff (tiler 1 1 true)
                           blank_slide (np_random_seed counting_prng 7)))).
    reflexivity.
Defined.

Lemma tiles_loop_exhausts_budget :
  forall (self : RandomTiler) (slide : Slide),
    check_tissue self = true ->
    0 <= n_tiles self ->
    on_pixels 0 (box_mask_lvl self slide) <> [] ->
    (forall c, exists tile,
        extract_tile slide c (level self) = Ok tile /\
        has_enough_tissue tile = false) ->
    forall (fuel : nat) (it : Z) (g : RandomState),
      0 <= it <= max_iter self ->
      max_iter self <> 0 ->
      (Z.to_nat (max_iter self + 1 - it) <= fuel)%nat ->
      tiles_loop self slide fuel it 0 g
      = ([], StopIteration (max_iter self + 1) 0).
Proof.
  intros self slide Hct Hn Hmask Hpoor fuel.
  induction fuel as [| fuel IH]; intros it g Hit Hm Hfuel; [lia |].
  cbn [tiles_loop].
  destruct (random_tile_coordinates_total self slide g Hmask) as [c [g' Hc]].
  rewrite Hc. destruct (Hpoor c) as [tile [Ht Hpoor']].
  rewrite Ht, Hct, Hpoor'. cbn [negb orb].
  unfold budget_exhausted, truthy.
  destruct (Z.eqb_spec (max_iter self) 0) as [Hz | Hnz]; [contradiction |].
  cbn [negb andb].
  destruct (Z.gtb_spec (it + 1) (max_iter self)) as [Hgt | Hle].
  - replace (it + 1) with (max_iter self + 1) by lia. reflexivity.
  - destruct (Z.gtb_spec 0 (n_tiles self)) as [Hgt' | Hle']; [lia |].
    rewrite IH; [reflexivity | lia | exact Hm | lia].
Qed.

(** X15. With the tissue check on and a positive [max_iter], on a slide
    whose mask has a true pixel and whose extractions all succeed with tiles
    that fail the check, the generator yields nothing and gives up after
    exactly [max_iter + 1] counted attempts. *)
Theorem generator_exhausts_budget :
  forall (self : RandomTiler) (slide : Slide) (fuel : nat) (g : RandomState),
    check_tissue self = true ->
    0 <= n_tiles self ->
    0 < max_iter self ->
    on_pixels 0 (box_mask_lvl self slide) <> [] ->
    (forall c, exists tile,
        extract_tile slide c (level self) = Ok tile /\
        has_enough_tissue tile = false) ->
    (Z.to_nat (max_iter self + 1) <= fuel)%nat ->
    _random_tiles_generator self slide fuel g
    = ([], StopIteration (max_iter self + 1) 0).
Proof.
  intros self slide fuel g Hct Hn Hm Hmask Hpoor Hfuel.
  unfold _random_tiles_generator.
  apply tiles_loop_exhausts_budget; try assumption; lia.
Qed.

Lemma generator_exhausts_budget_witness :
  _random_tiles_generator (tiler 1 3 true) (uniform_slide false) 4
                          (np_random_seed counting_prng 7)
  = ([], StopIteration 4 0).
Proof.
  apply (generator_exhausts_budget (tiler 1 3 true) (uniform_slide false) 4
           (np_random_seed counting_prng 7)).
  - reflexivity.
  - simpl. lia.
  - simpl. lia.
  - discriminate.
  - intro c. eexists. split; reflexivity.
  - simpl. lia.
Defined.
